(** * ViewingSpace: the viewing volume of a Viewport

    A shallow embedding of [core/frontend/src/ViewingSpace.ts] and the
    properties of its constructor, factories and queries.

    Numbers.  A JavaScript [number] is modelled as an exact rational [Q]
    wherever a property is about which branch runs, which value is stored
    where, and how stored values are ordered; [NaN], the infinities and
    rounding are outside that model, and a division by zero yields [0]
    there.  What depends on rounding is stated over the binary64 numbers
    themselves, in the module [Binary64].

    Mutation.  The constructor writes to the [ViewState] it was given; it is
    modelled by explicit state passing: every function that may write to the
    view returns the view it leaves behind. *)

From Stdlib Require Import PrimFloat.
From Stdlib Require Import QArith Qabs Qminmax Lqa List Bool.
Import ListNotations.
Open Scope Q_scope.

(** ** Numbers *)

(** [a < b] and [a > b] on numbers, as booleans. *)
Definition ltb (a b : Q) : bool := negb (Qle_bool b a).
Definition gtb (a b : Q) : bool := ltb b a.

(** ** Points, vectors, matrices and ranges (geometry-core data) *)

Record XYZ : Type := mkXYZ { x : Q; y : Q; z : Q }.

Definition Point3d := XYZ.
Definition Vector3d := XYZ.

Definition setZ (p : XYZ) (v : Q) : XYZ := mkXYZ p.(x) p.(y) v.

(** [Vector3d.unitZ()], the world-up vector. *)
Definition unitZ : Vector3d := mkXYZ 0 0 1.

(** [Point3d.createZero()] *)
Definition createZero : Point3d := mkXYZ 0 0 0.

(** Modelled from the spec: [XYZ.isExactEqual] (geometry-core, not in src),
    the "exact compare" of two points: [===] on each coordinate. *)
Definition isExactEqual (a b : XYZ) : bool :=
  Qeq_bool a.(x) b.(x) && Qeq_bool a.(y) b.(y) && Qeq_bool a.(z) b.(z).

(** Modelled from the spec: [XYZ.plus], [XYZ.minus] and [XYZ.plusScaled]
    (geometry-core, not in src): coordinate-wise sum, difference and
    [p + s * v]. *)
Definition plus (a b : XYZ) : XYZ :=
  mkXYZ (a.(x) + b.(x)) (a.(y) + b.(y)) (a.(z) + b.(z)).
Definition minus (a b : XYZ) : XYZ :=
  mkXYZ (a.(x) - b.(x)) (a.(y) - b.(y)) (a.(z) - b.(z)).
Definition plusScaled (p v : XYZ) (s : Q) : XYZ :=
  mkXYZ (p.(x) + v.(x) * s) (p.(y) + v.(y) * s) (p.(z) + v.(z) * s).

(** Modelled from the spec: [Vector3d.crossProduct] and
    [Vector3d.dotProduct] (geometry-core, not in src). *)
Definition crossProduct (a b : XYZ) : XYZ :=
  mkXYZ (a.(y) * b.(z) - a.(z) * b.(y))
        (a.(z) * b.(x) - a.(x) * b.(z))
        (a.(x) * b.(y) - a.(y) * b.(x)).
Definition dotProduct (a b : XYZ) : Q :=
  a.(x) * b.(x) + a.(y) * b.(y) + a.(z) * b.(z).

(** A 3x3 matrix, by rows: [rowX], [rowY], [rowZ] are the source's
    accessors, [rowZ] is also [getRow(2)]. *)
Record Matrix3d : Type := mkMatrix3d { rowX : XYZ; rowY : XYZ; rowZ : XYZ }.

Definition identity3d : Matrix3d :=
  mkMatrix3d (mkXYZ 1 0 0) (mkXYZ 0 1 0) (mkXYZ 0 0 1).

(** Modelled from the spec: [Matrix3d.multiplyVectorInPlace] (geometry-core,
    not in src), which puts a world vector into view-aligned coordinates:
    the product matrix * vector. *)
Definition multiplyVectorInPlace (m : Matrix3d) (v : XYZ) : XYZ :=
  mkXYZ (dotProduct m.(rowX) v) (dotProduct m.(rowY) v) (dotProduct m.(rowZ) v).

(** Modelled from the spec: [Matrix3d.multiplyTransposeVectorInPlace]
    (geometry-core, not in src), which takes a view-aligned vector back to
    world coordinates: the product transpose(matrix) * vector. *)
Definition multiplyTransposeVectorInPlace (m : Matrix3d) (v : XYZ) : XYZ :=
  mkXYZ (m.(rowX).(x) * v.(x) + m.(rowY).(x) * v.(y) + m.(rowZ).(x) * v.(z))
        (m.(rowX).(y) * v.(x) + m.(rowY).(y) * v.(y) + m.(rowZ).(y) * v.(z))
        (m.(rowX).(z) * v.(x) + m.(rowY).(z) * v.(y) + m.(rowZ).(z) * v.(z)).

(** Modelled from the spec: [Matrix3d.transpose] and [Matrix3d.setColumn]
    at column index 2 (geometry-core, not in src). *)
Definition transpose (m : Matrix3d) : Matrix3d :=
  mkMatrix3d (mkXYZ m.(rowX).(x) m.(rowY).(x) m.(rowZ).(x))
             (mkXYZ m.(rowX).(y) m.(rowY).(y) m.(rowZ).(y))
             (mkXYZ m.(rowX).(z) m.(rowY).(z) m.(rowZ).(z)).
Definition columnZ (m : Matrix3d) : XYZ :=
  mkXYZ m.(rowX).(z) m.(rowY).(z) m.(rowZ).(z).
Definition setColumnZ (m : Matrix3d) (v : XYZ) : Matrix3d :=
  mkMatrix3d (setZ m.(rowX) v.(x)) (setZ m.(rowY) v.(y)) (setZ m.(rowZ) v.(z)).

(** The axis orders of [Matrix3d.createRigidFromMatrix3d]. *)
Inductive AxisOrder : Type :=
  | AxisOrder_XYZ | AxisOrder_YZX | AxisOrder_ZXY
  | AxisOrder_XZY | AxisOrder_YXZ | AxisOrder_ZYX.

(** A range: low and high corners.  It is null when some high coordinate is
    below the low one. *)
Record Range3d : Type := mkRange3d { low : Point3d; high : Point3d }.

(** Modelled from the spec: [Range3d.isNull] (geometry-core, not in src). *)
Definition isNull (r : Range3d) : bool :=
  ltb r.(high).(x) r.(low).(x) || ltb r.(high).(y) r.(low).(y)
  || ltb r.(high).(z) r.(low).(z).

(** Modelled from the spec: [Range3d.extend] by one point (geometry-core,
    not in src): each low coordinate drops to the point's when the point is
    below it, each high coordinate rises to it when the point is above. *)
Definition extend1 (lo hi v : Q) : Q * Q :=
  ((if ltb v lo then v else lo), (if gtb v hi then v else hi)).
Definition extend (r : Range3d) (p : Point3d) : Range3d :=
  let '(lx, hx) := extend1 r.(low).(x) r.(high).(x) p.(x) in
  let '(ly, hy) := extend1 r.(low).(y) r.(high).(y) p.(y) in
  let '(lz, hz) := extend1 r.(low).(z) r.(high).(z) p.(z) in
  mkRange3d (mkXYZ lx ly lz) (mkXYZ hx hy hz).

(** Modelled from the spec: [Range3d.fractionToPoint] (geometry-core, not in
    src), the affine map from the unit cube onto the range: each coordinate
    is interpolated between low and high, [low + f * (high - low)]. *)
Definition interpolate (a f b : Q) : Q := a + f * (b - a).
Definition fractionToPoint (r : Range3d) (fx fy fz : Q) : Point3d :=
  mkXYZ (interpolate r.(low).(x) fx r.(high).(x))
        (interpolate r.(low).(y) fy r.(high).(y))
        (interpolate r.(low).(z) fz r.(high).(z)).

Record Plane3dByOriginAndUnitNormal : Type :=
  mkPlane { getOriginRef : Point3d; getNormalRef : Vector3d }.

Record Ray3d : Type := mkRay3d { rayOrigin : Point3d; rayDirection : Vector3d }.

(** Modelled from the spec: [Ray3d.createStartEnd] (geometry-core, not in
    src), the ray from a start point towards an end point. *)
Definition createStartEnd (a b : Point3d) : Ray3d := mkRay3d a (minus b a).

(** A frustum is its eight corner points, indexed by [Npc]. *)
Definition Frustum := list Point3d.

(** Modelled from the spec: [NpcCorners] (imodeljs-common, not in src), the
    corners of the unit NPC cube, from [Npc._000] (index 0) to [Npc._111]
    (index 7); [new Frustum()] and [Frustum.initNpc] hold exactly these. *)
Definition NpcCorners : Frustum :=
  [ mkXYZ 0 0 0; mkXYZ 1 0 0; mkXYZ 0 1 0; mkXYZ 1 1 0;
    mkXYZ 0 0 1; mkXYZ 1 0 1; mkXYZ 0 1 1; mkXYZ 1 1 1 ].
Definition Npc_000 : Point3d := nth 0 NpcCorners createZero.
Definition Npc_111 : Point3d := nth 7 NpcCorners createZero.

(** Modelled from the spec: [Frustum.fromRange] (imodeljs-common, not in
    src), "a frustum built from its corners": the eight corners of the
    range.  Their order plays no role, the frustum is only turned back into
    a range. *)
Definition fromRange (r : Range3d) : Frustum :=
  let l := r.(low) in
  let h := r.(high) in
  [ mkXYZ l.(x) l.(y) l.(z); mkXYZ h.(x) l.(y) l.(z);
    mkXYZ l.(x) h.(y) l.(z); mkXYZ h.(x) h.(y) l.(z);
    mkXYZ l.(x) l.(y) h.(z); mkXYZ h.(x) l.(y) h.(z);
    mkXYZ l.(x) h.(y) h.(z); mkXYZ h.(x) h.(y) h.(z) ].

(** Modelled from the spec: [Frustum.toRange] (imodeljs-common, not in src),
    "the resulting range": the smallest range holding every corner. *)
Definition toRange (f : Frustum) : Range3d :=
  match f with
  | [] => mkRange3d (mkXYZ 1 1 1) (mkXYZ (-1) (-1) (-1))
  | p :: ps => fold_left extend ps (mkRange3d p p)
  end.

(** A 4x4 matrix by rows, and a projective map with its inverse. *)
Record Point4d : Type := mkPoint4d { x4 : Q; y4 : Q; z4 : Q; w4 : Q }.
Record Matrix4d : Type :=
  mkMatrix4d { row0 : Point4d; row1 : Point4d; row2 : Point4d; row3 : Point4d }.
Record Map4d : Type := mkMap4d { transform0 : Matrix4d; transform1 : Matrix4d }.

Definition identity4d : Matrix4d :=
  mkMatrix4d (mkPoint4d 1 0 0 0) (mkPoint4d 0 1 0 0)
             (mkPoint4d 0 0 1 0) (mkPoint4d 0 0 0 1).

(** [Map4d.createIdentity()] *)
Definition createIdentity : Map4d := mkMap4d identity4d identity4d.

(** Modelled from the spec: [Constant.oneMeter], [Constant.oneCentimeter]
    and [Constant.earthRadiusWGS84.equator] (geometry-core, not in src); the
    world unit is the meter. *)
Definition oneMeter : Q := 1.
Definition oneCentimeter : Q := 1 # 100.
Definition earthRadiusWGS84_equator : Q := 6378137.

(** Modelled from the spec: [Transform.createOriginAndMatrix] and
    [Transform.multiplyPoint3d] (geometry-core, not in src), the point
    transform [origin + matrix * point]. *)
Record Transform : Type := mkTransform { trOrigin : Point3d; trMatrix : Matrix3d }.
Definition createOriginAndMatrix (o : Point3d) (m : Matrix3d) : Transform :=
  mkTransform o m.
Definition multiplyPoint3d (t : Transform) (p : Point3d) : Point3d :=
  plus t.(trOrigin) (multiplyVectorInPlace t.(trMatrix) p).

(** Modelled from the spec: [Frustum.multiply] (imodeljs-common, not in
    src): every corner goes through the transform. *)
Definition frustumMultiply (f : Frustum) (t : Transform) : Frustum :=
  map (multiplyPoint3d t) f.

(** ** The View and the Viewport (external state) *)

Module Camera.
Record t : Type := mk { lens : Q; focusDist : Q; eye : Point3d }.
End Camera.

Module ExtentLimits.
Record t : Type := mk { min : Q; max : Q }.
End ExtentLimits.

(** What the constructor reads from (and writes to) a [ViewState].  The
    class of the view ([ViewState2d], [ViewState3d]) shows as [is3d]; the
    camera fields are only read when [is3d] holds.  [getViewedExtents] is a
    query of the scene that returns a fresh range at each call. *)
Module ViewState.
Record t : Type := mk {
  getOrigin : Point3d;
  getExtents : Vector3d;
  getRotation : Matrix3d;
  is3d : bool;
  allow3dManipulations : bool;
  isCameraOn : bool;
  camera : Camera.t;
  extentLimits : ExtentLimits.t;
  forceMinFrontDist : Q;
  getViewedExtents : Range3d
}.

Definition setRotation (v : t) (m : Matrix3d) : t :=
  mk v.(getOrigin) v.(getExtents) m v.(is3d) v.(allow3dManipulations)
     v.(isCameraOn) v.(camera) v.(extentLimits) v.(forceMinFrontDist)
     v.(getViewedExtents).

Definition setCamera (v : t) (c : Camera.t) : t :=
  mk v.(getOrigin) v.(getExtents) v.(getRotation) v.(is3d)
     v.(allow3dManipulations) v.(isCameraOn) c v.(extentLimits)
     v.(forceMinFrontDist) v.(getViewedExtents).
End ViewState.

(** The result of [ViewState.computeWorldToNpc]: the map, when there is
    one, and the frustum fraction. *)
Module WorldToNpc.
Record t : Type := mk { map : option Map4d; frustFraction : Q }.
End WorldToNpc.

Record ViewRect : Type := mkViewRect { left : Q; top : Q; right : Q; bottom : Q }.

(** Modelled from the spec: [ViewRect.init], [ViewRect.width] and
    [ViewRect.height] ([ViewRect.ts], not in src), on whole pixel counts. *)
Definition viewRectInit (l t r b : Q) : ViewRect := mkViewRect l t r b.
Definition width (r : ViewRect) : Q := r.(right) - r.(left).
Definition height (r : ViewRect) : Q := r.(bottom) - r.(top).

Record Viewport : Type := mkViewport {
  view : ViewState.t;
  viewRect : ViewRect;
  getDisplayedPlanes : list Plane3dByOriginAndUnitNormal
}.

Inductive CoordSystem : Type := CoordSystem_View | CoordSystem_Npc | CoordSystem_World.

(** ** Operations the file calls and does not define

    These belong to geometry-core, imodeljs-common and [ViewState]; the
    development is parametric in them.  [createRigidFromMatrix3d m order]
    is the matrix left in the result argument, which the source aliases
    with [m].  [assertionsEnabled] says whether [assert] of bentleyjs-core
    throws when its condition is false (it does nothing otherwise). *)
Class Host : Type := {
  Math_sqrt : Q -> Q;
  Math_tan : Q -> Q;
  isAlmostEqual : XYZ -> XYZ -> bool;
  createRigidFromMatrix3d : Matrix3d -> AxisOrder -> Matrix3d;
  validateLens : Camera.t -> Camera.t;
  isFocusValid : Camera.t -> bool;
  getEyePoint : ViewState.t -> Point3d;
  computeWorldToNpc :
    ViewState.t -> Matrix3d -> Point3d -> Vector3d -> bool -> WorldToNpc.t;
  intersectionWithPlane :
    Ray3d -> Plane3dByOriginAndUnitNormal -> option (Q * Point3d);
  multiplyPoint3dQuietNormalize : Matrix4d -> Point3d -> Point3d;
  createBoxMap : Point3d -> Point3d -> Point3d -> Point3d -> option Map4d;
  multiplyMapMap : Map4d -> Map4d -> Map4d;
  assertionsEnabled : bool
}.

(** ** The ViewingSpace *)

Record ViewingSpace : Type := mkViewingSpace {
  frustFraction : Q;
  viewOrigin : Point3d;
  viewDelta : Vector3d;
  viewOriginUnexpanded : Point3d;
  viewDeltaUnexpanded : Vector3d;
  rotation : Matrix3d;
  worldToViewMap : Map4d;
  worldToNpcMap : Map4d;
  zClipAdjusted : bool;
  clientWidth : Q;
  clientHeight : Q;
  displayedPlanes : list Plane3dByOriginAndUnitNormal
}.

Section ViewingSpaceCode.
Context {host : Host}.

(** [Vector3d.magnitude] *)
Definition magnitude (v : Vector3d) : Q := Math_sqrt (dotProduct v v).

(** [frustumDepth2d] *)
Definition frustumDepth2d : Q := oneMeter.

(** [nearScaleNonLog24] and [nearScaleLog24], the statics the map builder
    of the view reads. *)
Definition nearScaleNonLog24 : Q := 3 # 10000.
Definition nearScaleLog24 : Q := 1 # 100000000.

(** [toViewOrientation] and [fromViewOrientation], on the point itself. *)
Definition toViewOrientation (rot : Matrix3d) (p : XYZ) : XYZ :=
  multiplyVectorInPlace rot p.
Definition fromViewOrientation (rot : Matrix3d) (p : XYZ) : XYZ :=
  multiplyTransposeVectorInPlace rot p.

(** [alignWithRootZ]: the rotation of the ViewingSpace and the view left
    behind. *)
Definition alignWithRootZ (rot : Matrix3d) (v : ViewState.t)
  : Matrix3d * ViewState.t :=
  let zUp := unitZ in
  if isAlmostEqual zUp rot.(rowZ) then (rot, v)
  else
    let r := transpose rot in
    let r := setColumnZ r zUp in
    let r := createRigidFromMatrix3d r AxisOrder_ZXY in
    let rot' := transpose r in
    (rot', ViewState.setRotation v rot').

(** [validateCamera]: the view left behind. *)
Definition validateCamera (rot : Matrix3d) (v : ViewState.t) : ViewState.t :=
  if negb v.(ViewState.is3d) then v
  else
    let camera := validateLens v.(ViewState.camera) in
    let v := ViewState.setCamera v camera in
    if isFocusValid camera then v
    else
      let vDelta := v.(ViewState.getExtents) in
      let maxDelta := if gtb vDelta.(x) vDelta.(y) then vDelta.(x) else vDelta.(y) in
      let focusDistance := maxDelta / (2 * Math_tan (camera.(Camera.lens) / 2)) in
      let focusDistance :=
        if ltb focusDistance (vDelta.(z) / 2) then vDelta.(z) / 2
        else focusDistance in
      let eyePoint :=
        mkXYZ (vDelta.(x) / 2) (vDelta.(y) / 2) (vDelta.(z) / 2 + focusDistance) in
      let eyePoint := fromViewOrientation rot eyePoint in
      let eyePoint := plus eyePoint v.(ViewState.getOrigin) in
      ViewState.setCamera v
        (Camera.mk camera.(Camera.lens) focusDistance eyePoint).

(** One pass of the loop over the four side edges of the frustum in
    [extendRangeForDisplayedPlanes]: the range and [includeHorizon]. *)
Definition extendByFrustumRay (v : ViewState.t)
    (displayedPlane : Plane3dByOriginAndUnitNormal) (points : Frustum)
    (acc : Range3d * bool) (i : nat) : Range3d * bool :=
  let '(extents, includeHorizon) := acc in
  let frustumRay :=
    createStartEnd (nth (i + 4) points createZero) (nth i points createZero) in
  match intersectionWithPlane frustumRay displayedPlane with
  | Some (intersectDistance, intersect) =>
      if negb v.(ViewState.isCameraOn) || gtb intersectDistance 0
      then (extend extents intersect, includeHorizon)
      else (extents, true)
  | None => (extents, true)
  end.

(** The loop of [extendRangeForDisplayedPlanes] over the displayed planes.
    [viewOrigin] and [viewDelta] are the fields of the ViewingSpace at the
    time of the call.  A missing provisional map leaves the function. *)
Fixpoint extendRangeLoop (v : ViewState.t) (rot : Matrix3d)
    (viewOrigin : Point3d) (viewDelta : Vector3d)
    (planes : list Plane3dByOriginAndUnitNormal) (extents : Range3d)
  : Range3d :=
  match planes with
  | [] => extents
  | displayedPlane :: rest =>
      let planeNormal := displayedPlane.(getNormalRef) in
      let viewZ := rot.(rowZ) in
      let onPlane := crossProduct viewZ planeNormal in
      if gtb (magnitude onPlane) (1 # 100000000) then
        match (computeWorldToNpc v rot viewOrigin viewDelta false).(WorldToNpc.map) with
        | None => extents
        | Some worldToNpc =>
            let points :=
              map (multiplyPoint3dQuietNormalize worldToNpc.(transform1)) NpcCorners in
            let '(extents, includeHorizon) :=
              fold_left (extendByFrustumRay v displayedPlane points)
                        [0; 1; 2; 3]%nat (extents, false) in
            let extents :=
              if includeHorizon then
                let horizonDistance := 10000 in
                let eyePoint := getEyePoint v in
                let eyeHeight := eyePoint.(z) in
                let horizonDistance :=
                  if gtb eyeHeight 0
                  then Qmax horizonDistance
                         (Math_sqrt (eyeHeight * eyeHeight
                                     + 2 * eyeHeight * earthRadiusWGS84_equator))
                  else horizonDistance in
                extend extents (plusScaled eyePoint viewZ (- horizonDistance))
              else extents in
            let extents :=
              if v.(ViewState.isCameraOn) then
                let minimumEyeDistance := 10 in
                extend extents (plusScaled (getEyePoint v) viewZ (- minimumEyeDistance))
              else extents in
            extendRangeLoop v rot viewOrigin viewDelta rest extents
        end
      else
        let extents :=
          extend extents (plusScaled displayedPlane.(getOriginRef) planeNormal (-1)) in
        let extents :=
          extend extents (plusScaled displayedPlane.(getOriginRef) planeNormal 1) in
        extendRangeLoop v rot viewOrigin viewDelta rest extents
  end.

(** [extendRangeForDisplayedPlanes]: the range left in [extents]. *)
Definition extendRangeForDisplayedPlanes (v : ViewState.t) (rot : Matrix3d)
    (viewOrigin : Point3d) (viewDelta : Vector3d)
    (planes : list Plane3dByOriginAndUnitNormal) (extents : Range3d)
  : Range3d :=
  if negb v.(ViewState.is3d) then extents
  else extendRangeLoop v rot viewOrigin viewDelta planes extents.

(** The viewed extents once the displayed planes are taken in, as
    [adjustZPlanes] tests them for null. *)
Definition extendedViewedExtents (v : ViewState.t) (rot : Matrix3d)
    (viewOrigin : Point3d) (viewDelta : Vector3d)
    (planes : list Plane3dByOriginAndUnitNormal) : Range3d :=
  extendRangeForDisplayedPlanes v rot viewOrigin viewDelta planes
    v.(ViewState.getViewedExtents).

(** The extended extents as min/max in view aligned coordinates. *)
Definition viewAlignedExtents (rot : Matrix3d) (extents : Range3d) : Range3d :=
  let viewTransform := createOriginAndMatrix createZero rot in
  let extFrust := fromRange extents in
  let extFrust := frustumMultiply extFrust viewTransform in
  toRange extFrust.

(** [adjustZPlanes]: the values left in [origin] and [delta]. *)
Definition adjustZPlanes (v : ViewState.t) (rot : Matrix3d)
    (viewOrigin : Point3d) (viewDelta : Vector3d)
    (planes : list Plane3dByOriginAndUnitNormal)
    (origin : Point3d) (delta : Vector3d) : Point3d * Vector3d :=
  if negb v.(ViewState.is3d) then (origin, delta)
  else
    let extents := extendedViewedExtents v rot viewOrigin viewDelta planes in
    if isNull extents then (origin, delta)
    else
      let extents := viewAlignedExtents rot extents in
      let origin := multiplyVectorInPlace rot origin in
      let origin := setZ origin extents.(low).(z) in
      let delta := setZ delta (extents.(high).(z) - origin.(z)) in
      let origin := multiplyTransposeVectorInPlace rot origin in
      if negb v.(ViewState.isCameraOn) then (origin, delta)
      else
        let eyeOrg := minus v.(ViewState.camera).(Camera.eye) origin in
        let eyeOrg := multiplyVectorInPlace rot eyeOrg in
        if ltb eyeOrg.(z) 1 then
          let origin := multiplyVectorInPlace rot origin in
          let origin := setZ origin (origin.(z) - (2 - eyeOrg.(z))) in
          let origin := multiplyTransposeVectorInPlace rot origin in
          (origin, setZ delta 1)
        else if gtb delta.(z) eyeOrg.(z) then (origin, setZ delta eyeOrg.(z))
        else (origin, delta).

(** [getViewCorners], from the client width and height kept by the
    ViewingSpace ([_viewRect] is [init(0, 0, width, height)]). *)
Definition getViewCorners (vs : ViewingSpace) : Range3d :=
  let viewRect := viewRectInit 0 0 vs.(clientWidth) vs.(clientHeight) in
  mkRange3d (mkXYZ 0 viewRect.(bottom) (-32767))
            (mkXYZ viewRect.(right) 0 32767).

(** [calcNpcToView].  [None] is the exception of the assertion: it is
    thrown when there is no box map and assertions are enabled; with
    assertions disabled the line after it returns the identity. *)
Definition calcNpcToView (vs : ViewingSpace) : option Map4d :=
  let corners := getViewCorners vs in
  let map := createBoxMap Npc_000 Npc_111 corners.(low) corners.(high) in
  match map with
  | Some m => Some m
  | None => if assertionsEnabled then None else Some createIdentity
  end.

(** [clampRange] of the constructor. *)
Definition clampRange (limits : ExtentLimits.t) (val : Q) : Q :=
  Qmin (Qmax limits.(ExtentLimits.min) val) limits.(ExtentLimits.max).

(** The branch of the constructor on the kind of view: the rotation, the
    view left behind, [origin], [delta] and [zClipAdjusted].  [origin0]
    and [delta0] are what the fields [viewOrigin] and [viewDelta] (and the
    unexpanded pair) hold at that time. *)
Definition adjustVolume (v : ViewState.t) (rot : Matrix3d)
    (planes : list Plane3dByOriginAndUnitNormal)
    (origin0 : Point3d) (delta0 : Vector3d)
  : Matrix3d * ViewState.t * Point3d * Vector3d * bool :=
  let origin := origin0 in
  let delta := delta0 in
  if v.(ViewState.is3d) then
    if negb v.(ViewState.allow3dManipulations) then
      let '(rot, v) := alignWithRootZ rot v in
      let extents := v.(ViewState.getViewedExtents) in
      let extents :=
        if isNull extents
        then mkRange3d (setZ extents.(low) (- frustumDepth2d))
                       (setZ extents.(high) frustumDepth2d)
        else extents in
      let zMax := Qmax (Qabs extents.(low).(z)) (Qabs extents.(high).(z)) in
      let zMax := Qmax zMax 1 in
      let delta := setZ delta (2 * zMax) in
      let origin := setZ origin (- zMax) in
      (rot, v, origin, delta, false)
    else
      let v := if v.(ViewState.isCameraOn) then validateCamera rot v else v in
      let '(origin, delta) := adjustZPlanes v rot origin0 delta0 planes origin delta in
      let origin :=
        if v.(ViewState.isCameraOn) then
          let eyeOrg := minus v.(ViewState.camera).(Camera.eye) origin in
          let eyeOrg := toViewOrientation rot eyeOrg in
          let frontDist := eyeOrg.(z) - delta.(z) in
          let minFrontDist :=
            Qmax ((152 # 10) * oneCentimeter) v.(ViewState.forceMinFrontDist) in
          if ltb frontDist minFrontDist then
            let origin := toViewOrientation rot origin in
            let origin := setZ origin (origin.(z) - (minFrontDist - frontDist)) in
            fromViewOrientation rot origin
          else origin
        else origin in
      let zClipAdjusted :=
        negb (isExactEqual origin origin0) || negb (isExactEqual delta delta0) in
      (rot, v, origin, delta, zClipAdjusted)
  else
    let '(rot, v) := alignWithRootZ rot v in
    let delta := setZ delta (2 * frustumDepth2d) in
    let origin := setZ origin (- frustumDepth2d) in
    (rot, v, origin, delta, false).

(** The constructor, run to where it stops: the ViewingSpace, the view it
    leaves behind (the ViewingSpace keeps a reference to that same view),
    and whether it stopped at the assertion of [calcNpcToView] instead of
    returning.  In that case the ViewingSpace is given as it is at that
    point, [worldToViewMap] not yet written, and no object reaches the
    caller. *)
Definition runConstructor (vp : Viewport)
    (planes : list Plane3dByOriginAndUnitNormal)
  : ViewingSpace * ViewState.t * bool :=
  let v := vp.(view) in
  let viewRect := vp.(viewRect) in
  let clientWidth := width viewRect in
  let clientHeight := height viewRect in
  let origin := v.(ViewState.getOrigin) in
  let delta := v.(ViewState.getExtents) in
  let rot := v.(ViewState.getRotation) in
  let delta := mkXYZ (Qabs delta.(x)) (Qabs delta.(y)) (Qabs delta.(z)) in
  let limits := v.(ViewState.extentLimits) in
  let delta :=
    mkXYZ (clampRange limits delta.(x)) (clampRange limits delta.(y)) delta.(z) in
  let viewOriginUnexpanded := origin in
  let viewDeltaUnexpanded := delta in
  let '(rot, v, origin, delta, zClipAdjusted) :=
    adjustVolume v rot planes origin delta in
  let newRootToNpc :=
    computeWorldToNpc v rot origin delta (Nat.eqb 0 (length planes)) in
  match newRootToNpc.(WorldToNpc.map) with
  | None =>
      (mkViewingSpace 0 origin delta viewOriginUnexpanded viewDeltaUnexpanded
         rot createIdentity createIdentity zClipAdjusted
         clientWidth clientHeight planes, v, false)
  | Some m =>
      let this :=
        mkViewingSpace newRootToNpc.(WorldToNpc.frustFraction) origin delta
          viewOriginUnexpanded viewDeltaUnexpanded rot createIdentity m
          zClipAdjusted clientWidth clientHeight planes in
      match calcNpcToView this with
      | None => (this, v, true)
      | Some npcToViewMap =>
          (mkViewingSpace this.(frustFraction) origin delta
             viewOriginUnexpanded viewDeltaUnexpanded rot
             (multiplyMapMap npcToViewMap this.(worldToNpcMap)) m
             zClipAdjusted clientWidth clientHeight planes, v, false)
      end
  end.

(** The ViewingSpace and the view as the constructor leaves them, and
    whether the constructor throws. *)
Definition construct (vp : Viewport)
    (planes : list Plane3dByOriginAndUnitNormal) : ViewingSpace * ViewState.t :=
  fst (runConstructor vp planes).
Definition constructorThrows (vp : Viewport)
    (planes : list Plane3dByOriginAndUnitNormal) : bool :=
  snd (runConstructor vp planes).

(** The factories.  [None] says that no object comes back: the factory
    returned [undefined], or the constructor threw and the exception went
    through the factory ([constructorThrows] tells the two apart).  The
    second component is the view of the viewport after the call.
    [getDisplayedPlanes] hands out a fresh array, so the [push] stays
    local. *)
Definition createFromViewport (vp : Viewport)
  : option ViewingSpace * ViewState.t :=
  let '(vs, v, threw) := runConstructor vp vp.(getDisplayedPlanes) in
  ((if threw then None else Some vs), v).

Definition createFromViewportAndPlane (vp : Viewport)
    (plane : Plane3dByOriginAndUnitNormal) : option ViewingSpace * ViewState.t :=
  let planes := vp.(getDisplayedPlanes) in
  let planes := planes ++ [plane] in
  let '(vf, v, threw) := runConstructor vp planes in
  ((if threw then None
    else if Qeq_bool 0 vf.(frustFraction) then None else Some vf), v).

(** Conversions between NPC, view and world coordinates. *)
Definition npcToView (vs : ViewingSpace) (pt : Point3d) : Point3d :=
  let corners := getViewCorners vs in
  fractionToPoint corners pt.(x) pt.(y) pt.(z).

Definition npcToViewArray (vs : ViewingSpace) (pts : list Point3d) : list Point3d :=
  let corners := getViewCorners vs in
  map (fun p => fractionToPoint corners p.(x) p.(y) p.(z)) pts.

Definition worldToNpcArray (vs : ViewingSpace) (pts : list Point3d) : list Point3d :=
  map (multiplyPoint3dQuietNormalize vs.(worldToNpcMap).(transform0)) pts.

Definition npcToWorldArray (vs : ViewingSpace) (pts : list Point3d) : list Point3d :=
  map (multiplyPoint3dQuietNormalize vs.(worldToNpcMap).(transform1)) pts.

(** Single point conversions through the stored maps. *)
Definition worldToNpc (vs : ViewingSpace) (pt : Point3d) : Point3d :=
  multiplyPoint3dQuietNormalize vs.(worldToNpcMap).(transform0) pt.
Definition npcToWorld (vs : ViewingSpace) (pt : Point3d) : Point3d :=
  multiplyPoint3dQuietNormalize vs.(worldToNpcMap).(transform1) pt.
Definition worldToView (vs : ViewingSpace) (input : Point3d) : Point3d :=
  multiplyPoint3dQuietNormalize vs.(worldToViewMap).(transform0) input.
Definition viewToWorld (vs : ViewingSpace) (input : Point3d) : Point3d :=
  multiplyPoint3dQuietNormalize vs.(worldToViewMap).(transform1) input.

(** The [switch] that ends [getFrustum]. *)
Definition npcToSystem (vs : ViewingSpace) (sys : CoordSystem) (box : Frustum)
  : Frustum :=
  match sys with
  | CoordSystem_View => npcToViewArray vs box
  | CoordSystem_World => npcToWorldArray vs box
  | CoordSystem_Npc => box
  end.

(** [getFrustum]; [v] is the view the ViewingSpace refers to, as it is at
    the time of the call.  A [box] that is passed in is reset by
    [initNpc], so it starts as the NPC corners either way. *)
Definition getFrustum (vs : ViewingSpace) (v : ViewState.t)
    (sys : CoordSystem) (adjustedBox : bool) (box : option Frustum) : Frustum :=
  let box := match box with Some _ => NpcCorners | None => NpcCorners end in
  if negb adjustedBox && vs.(zClipAdjusted) then
    let ueRootToNpc :=
      computeWorldToNpc v vs.(rotation) vs.(viewOriginUnexpanded)
        vs.(viewDeltaUnexpanded) true in
    match ueRootToNpc.(WorldToNpc.map) with
    | None => box
    | Some m =>
        let ueRootBox := map (multiplyPoint3dQuietNormalize m.(transform1)) NpcCorners in
        let ueRootBox := worldToNpcArray vs ueRootBox in
        let box := ueRootBox in
        npcToSystem vs sys box
    end
  else npcToSystem vs sys box.
End ViewingSpaceCode.

(** ** A host to run the code on

    Executable stand-ins for the operations of [Host], used to evaluate the
    code on concrete views: a rational square root (to six decimals), the
    first terms of the tangent series, the geometry-core tolerance
    [smallMetricDistance = 1.0e-6], and the world to NPC map builder of the
    view, written after [ViewState.computeWorldToNpc] and
    [Map4d.createVectorFrustum]. *)
Module Sample.

Definition sqrt (q : Q) : Q :=
  Qred ((Z.sqrt (Qnum q * Zpos (Qden q) * 10 ^ 12))%Z # (Qden q * 10 ^ 6)%positive).

Definition tan (a : Q) : Q := a + a * a * a / 3.

Definition smallMetricDistance : Q := 1 # 1000000.

Definition isSameCoordinate (a b : Q) : bool :=
  ltb (Qabs (a - b)) smallMetricDistance.

Definition isAlmostEqual (a b : XYZ) : bool :=
  isSameCoordinate a.(x) b.(x) && isSameCoordinate a.(y) b.(y)
  && isSameCoordinate a.(z) b.(z).

Definition columnX (m : Matrix3d) : XYZ := (transpose m).(rowX).
Definition columnY (m : Matrix3d) : XYZ := (transpose m).(rowY).
Definition ofColumns (cx cy cz : XYZ) : Matrix3d :=
  transpose (mkMatrix3d cx cy cz).

Definition scale (v : XYZ) (s : Q) : XYZ :=
  mkXYZ (Qred (v.(x) * s)) (Qred (v.(y) * s)) (Qred (v.(z) * s)).

Definition magnitude (v : XYZ) : Q := sqrt (dotProduct v v).

Definition normalizeColumns (m : Matrix3d) : Matrix3d :=
  let ax := magnitude (columnX m) in
  let ay := magnitude (columnY m) in
  let az := magnitude (columnZ m) in
  if ltb ax smallMetricDistance || ltb ay smallMetricDistance
     || ltb az smallMetricDistance
  then m
  else ofColumns (scale (columnX m) (/ ax)) (scale (columnY m) (/ ay))
                 (scale (columnZ m) (/ az)).

(** The first axis of the order is kept, the third is the cross product
    of the first two, the second is then rebuilt from the third and the
    first. *)
Definition createRigidFromMatrix3d (m : Matrix3d) (order : AxisOrder) : Matrix3d :=
  let cx := columnX m in
  let cy := columnY m in
  let cz := columnZ m in
  normalizeColumns
    match order with
    | AxisOrder_XYZ =>
        let cz := crossProduct cx cy in ofColumns cx (crossProduct cz cx) cz
    | AxisOrder_YZX =>
        let cx := crossProduct cy cz in ofColumns cx cy (crossProduct cx cy)
    | AxisOrder_ZXY =>
        let cy := crossProduct cz cx in ofColumns (crossProduct cy cz) cy cz
    | AxisOrder_XZY =>
        let cy := crossProduct cz cx in ofColumns cx cy (crossProduct cx cy)
    | AxisOrder_YXZ =>
        let cz := crossProduct cx cy in ofColumns (crossProduct cy cz) cy cz
    | AxisOrder_ZYX =>
        let cx := crossProduct cy cz in ofColumns cx (crossProduct cz cx) cz
    end.

Definition pi : Q := 314159265 # 100000000.

Definition validateLens (c : Camera.t) : Camera.t :=
  if gtb c.(Camera.lens) (pi / 8) && ltb c.(Camera.lens) pi then c
  else Camera.mk (pi / 2) c.(Camera.focusDist) c.(Camera.eye).

Definition isFocusValid (c : Camera.t) : bool :=
  gtb c.(Camera.focusDist) 0 && ltb c.(Camera.focusDist) (100000000000000 # 1).

(** [ViewState3d.getEyePoint]: the eye point of the camera. *)
Definition getEyePoint (v : ViewState.t) : Point3d :=
  v.(ViewState.camera).(Camera.eye).

Definition intersectionWithPlane (ray : Ray3d)
    (plane : Plane3dByOriginAndUnitNormal) : option (Q * Point3d) :=
  let uDotN := dotProduct ray.(rayDirection) plane.(getNormalRef) in
  let aDotN :=
    dotProduct (minus ray.(rayOrigin) plane.(getOriginRef)) plane.(getNormalRef) in
  if Qeq_bool uDotN 0 then None
  else
    let t := - aDotN / uDotN in
    Some (t, plusScaled ray.(rayOrigin) ray.(rayDirection) t).

Definition apply4 (r : Point4d) (p : Point3d) : Q :=
  r.(x4) * p.(x) + r.(y4) * p.(y) + r.(z4) * p.(z) + r.(w4).

Definition multiplyPoint3dQuietNormalize (m : Matrix4d) (p : Point3d) : Point3d :=
  let w := apply4 m.(row3) p in
  let q := mkXYZ (apply4 m.(row0) p) (apply4 m.(row1) p) (apply4 m.(row2) p) in
  if Qeq_bool w 0 then q
  else mkXYZ (Qred (q.(x) / w)) (Qred (q.(y) / w)) (Qred (q.(z) / w)).

Definition boxMatrix (lowA highA lowB highB : Point3d) : Matrix4d :=
  let s a0 a1 b0 b1 := (b1 - b0) / (a1 - a0) in
  let sx := s lowA.(x) highA.(x) lowB.(x) highB.(x) in
  let sy := s lowA.(y) highA.(y) lowB.(y) highB.(y) in
  let sz := s lowA.(z) highA.(z) lowB.(z) highB.(z) in
  mkMatrix4d (mkPoint4d sx 0 0 (lowB.(x) - sx * lowA.(x)))
             (mkPoint4d 0 sy 0 (lowB.(y) - sy * lowA.(y)))
             (mkPoint4d 0 0 sz (lowB.(z) - sz * lowA.(z)))
             (mkPoint4d 0 0 0 1).

Definition flat (a b : Point3d) : bool :=
  Qeq_bool a.(x) b.(x) || Qeq_bool a.(y) b.(y) || Qeq_bool a.(z) b.(z).

Definition createBoxMap (lowA highA lowB highB : Point3d) : option Map4d :=
  if flat lowA highA || flat lowB highB then None
  else Some (mkMap4d (boxMatrix lowA highA lowB highB)
                     (boxMatrix lowB highB lowA highA)).

Definition dot4 (a b : Point4d) : Q :=
  a.(x4) * b.(x4) + a.(y4) * b.(y4) + a.(z4) * b.(z4) + a.(w4) * b.(w4).

Definition transpose4 (m : Matrix4d) : Matrix4d :=
  mkMatrix4d
    (mkPoint4d m.(row0).(x4) m.(row1).(x4) m.(row2).(x4) m.(row3).(x4))
    (mkPoint4d m.(row0).(y4) m.(row1).(y4) m.(row2).(y4) m.(row3).(y4))
    (mkPoint4d m.(row0).(z4) m.(row1).(z4) m.(row2).(z4) m.(row3).(z4))
    (mkPoint4d m.(row0).(w4) m.(row1).(w4) m.(row2).(w4) m.(row3).(w4)).

Definition multiplyMatrixMatrix (a b : Matrix4d) : Matrix4d :=
  let t := transpose4 b in
  let r v :=
    mkPoint4d (Qred (dot4 v t.(row0))) (Qred (dot4 v t.(row1)))
              (Qred (dot4 v t.(row2))) (Qred (dot4 v t.(row3))) in
  mkMatrix4d (r a.(row0)) (r a.(row1)) (r a.(row2)) (r a.(row3)).

Definition multiplyMapMap (a b : Map4d) : Map4d :=
  mkMap4d (multiplyMatrixMatrix a.(transform0) b.(transform0))
          (multiplyMatrixMatrix b.(transform1) a.(transform1)).

(** After [Matrix3d.inverse] and [Transform.inverse]: there is no inverse
    when the determinant is zero. *)
Definition determinant (m : Matrix3d) : Q :=
  dotProduct m.(rowX) (crossProduct m.(rowY) m.(rowZ)).

Definition inverse3d (m : Matrix3d) : option Matrix3d :=
  let d := determinant m in
  if Qeq_bool d 0 then None
  else
    Some (ofColumns (scale (crossProduct m.(rowY) m.(rowZ)) (/ d))
                    (scale (crossProduct m.(rowZ) m.(rowX)) (/ d))
                    (scale (crossProduct m.(rowX) m.(rowY)) (/ d))).

Definition inverseTransform (t : Transform) : option Transform :=
  match inverse3d t.(trMatrix) with
  | None => None
  | Some mi =>
      let o := multiplyVectorInPlace mi t.(trOrigin) in
      Some (createOriginAndMatrix (mkXYZ (- o.(x)) (- o.(y)) (- o.(z))) mi)
  end.

(** After [Matrix4d.createTransform]. *)
Definition createTransform4 (t : Transform) : Matrix4d :=
  let m := t.(trMatrix) in
  let o := t.(trOrigin) in
  mkMatrix4d (mkPoint4d m.(rowX).(x) m.(rowX).(y) m.(rowX).(z) o.(x))
             (mkPoint4d m.(rowY).(x) m.(rowY).(y) m.(rowY).(z) o.(y))
             (mkPoint4d m.(rowZ).(x) m.(rowZ).(y) m.(rowZ).(z) o.(z))
             (mkPoint4d 0 0 0 1).

(** After [Map4d.createVectorFrustum]: the map from the frustum with the
    given back corner and edge vectors to the unit cube; there is none when
    the edge vectors have no inverse. *)
Definition createVectorFrustum (origin : Point3d) (uVector vVector wVector : Vector3d)
    (fraction : Q) : option Map4d :=
  let fraction := Qmax fraction (1 # 100000000) in
  let slabToWorld :=
    createOriginAndMatrix origin (ofColumns uVector vVector wVector) in
  match inverseTransform slabToWorld with
  | None => None
  | Some worldToSlab =>
      let worldToSlabMap :=
        mkMap4d (createTransform4 worldToSlab) (createTransform4 slabToWorld) in
      let slabToNPCMap :=
        mkMap4d
          (mkMatrix4d (mkPoint4d 1 0 0 0) (mkPoint4d 0 1 0 0)
                      (mkPoint4d 0 0 fraction 0) (mkPoint4d 0 0 (fraction - 1) 1))
          (mkMatrix4d (mkPoint4d 1 0 0 0) (mkPoint4d 0 1 0 0)
                      (mkPoint4d 0 0 (1 / fraction) 0)
                      (mkPoint4d 0 0 ((1 - fraction) / fraction) 1)) in
      Some (multiplyMapMap slabToNPCMap worldToSlabMap)
  end.

(** The render system of the sample has no logarithmic z buffer. *)
Definition supportsLogZBuffer : bool := false.

Definition scaleVector (v : XYZ) (s : Q) : XYZ :=
  mkXYZ (v.(x) * s) (v.(y) * s) (v.(z) * s).

(** After [ViewState.computeWorldToNpc]: with the camera on, the frustum
    seen from the eye, its front plane kept away from the eye when the
    front to back ratio is enforced; otherwise the box of the view, a flat
    box being given a depth of one. *)
Definition computeWorldToNpc (v : ViewState.t) (viewRot : Matrix3d)
    (inOrigin : Point3d) (delta : Vector3d) (enforceFrontToBackRatio : bool)
  : WorldToNpc.t :=
  let xVector := viewRot.(rowX) in
  let yVector := viewRot.(rowY) in
  let zVector := viewRot.(rowZ) in
  if v.(ViewState.is3d) && v.(ViewState.isCameraOn) then
    let camera := v.(ViewState.camera) in
    let eyeToOrigin := minus inOrigin camera.(Camera.eye) in
    let eyeToOrigin := multiplyVectorInPlace viewRot eyeToOrigin in
    let focusDistance := camera.(Camera.focusDist) in
    let zDelta := delta.(z) in
    let zBack := eyeToOrigin.(z) in
    let zFront := zBack + zDelta in
    let nearScale :=
      if supportsLogZBuffer then nearScaleLog24 else nearScaleNonLog24 in
    let '(eyeToOrigin, zBack, zFront, zDelta) :=
      if enforceFrontToBackRatio && ltb (zFront / zBack) nearScale then
        let maximumBackClip := 10 * 1000 in
        let '(eyeToOrigin, zBack) :=
          if gtb (- zBack) maximumBackClip
          then (setZ eyeToOrigin (- maximumBackClip), - maximumBackClip)
          else (eyeToOrigin, zBack) in
        let zFront := zBack * nearScale in
        (eyeToOrigin, zBack, zFront, zFront - eyeToOrigin.(z))
      else (eyeToOrigin, zBack, zFront, zDelta) in
    let backFraction := - zBack / focusDistance in
    let frontFraction := - zFront / focusDistance in
    let frustFraction := Qred (frontFraction / backFraction) in
    let xExtent := scaleVector xVector (delta.(x) * backFraction) in
    let yExtent := scaleVector yVector (delta.(y) * backFraction) in
    let zExtent := multiplyTransposeVectorInPlace viewRot (mkXYZ 0 0 zDelta) in
    let origin :=
      mkXYZ (eyeToOrigin.(x) * backFraction) (eyeToOrigin.(y) * backFraction)
            eyeToOrigin.(z) in
    let origin := multiplyTransposeVectorInPlace viewRot origin in
    let origin := plus origin camera.(Camera.eye) in
    WorldToNpc.mk (createVectorFrustum origin xExtent yExtent zExtent frustFraction)
                  frustFraction
  else
    let xExtent := scaleVector xVector delta.(x) in
    let yExtent := scaleVector yVector delta.(y) in
    let zExtent :=
      scaleVector zVector (if Qeq_bool delta.(z) 0 then 1 else delta.(z)) in
    WorldToNpc.mk (createVectorFrustum inOrigin xExtent yExtent zExtent 1) 1.

(** The sample host; its [assert] throws. *)
Definition host : Host :=
  Build_Host sqrt tan isAlmostEqual createRigidFromMatrix3d validateLens
    isFocusValid getEyePoint computeWorldToNpc intersectionWithPlane
    multiplyPoint3dQuietNormalize createBoxMap multiplyMapMap true.

(** Sample views: extents 100 x 50, a view rectangle of 800 x 600 pixels,
    the identity rotation, the default extent limits. *)
Definition limits : ExtentLimits.t := ExtentLimits.mk (1 # 1000) 25484000.

(** The null range of [Range3d.createNull]: low is the largest and high the
    smallest coordinate a range may take, plus and minus the binary64
    number written [1.0e200]. *)
Definition extremePositive : Q :=
  inject_Z 99999999999999996973312221251036165947450327545502362648241750950346848435554075534196338404706251868027512415973882408182135734368278484639385041047239877871023591066789981811181813306167128854888448.
Definition nullRange : Range3d :=
  mkRange3d (mkXYZ extremePositive extremePositive extremePositive)
            (mkXYZ (- extremePositive) (- extremePositive) (- extremePositive)).
Definition camera0 : Camera.t := Camera.mk (pi / 2) 0 (mkXYZ 0 0 0).
Definition rect : ViewRect := viewRectInit 0 0 800 600.

Definition view2d : ViewState.t :=
  ViewState.mk (mkXYZ 0 0 0) (mkXYZ 100 50 1) identity3d
    false false false camera0 limits 0 nullRange.
Definition vp2d : Viewport := mkViewport view2d rect [].

End Sample.

(** More sample inputs: 3D views that allow manipulations and a 3D view
    that does not. *)
Module SampleViews.
Import Sample.

(** Camera off, nothing in the scene, a volume one unit deep. *)
Definition view3d : ViewState.t :=
  ViewState.mk (mkXYZ 0 0 0) (mkXYZ 100 50 1) identity3d
    true true false camera0 limits 0 nullRange.
Definition vp3d : Viewport := mkViewport view3d rect [].

(** A flat authored volume over a scene ten units deep. *)
Definition viewFlatScene : ViewState.t :=
  ViewState.mk (mkXYZ 0 0 0) (mkXYZ 100 50 0) identity3d
    true true false camera0 limits 0
    (mkRange3d (mkXYZ 0 0 0) (mkXYZ 100 50 10)).
Definition vpFlatScene : Viewport := mkViewport viewFlatScene rect [].

(** Extents authored with a negative x component. *)
Definition viewNegative : ViewState.t :=
  ViewState.mk (mkXYZ 0 0 0) (mkXYZ (-100) 50 1) identity3d
    true true false camera0 limits 0 nullRange.
Definition vpNegative : Viewport := mkViewport viewNegative rect [].

(** Camera on, with a focus distance that was never set (zero). *)
Definition viewCamera : ViewState.t :=
  ViewState.mk (mkXYZ 0 0 0) (mkXYZ 100 50 1) identity3d
    true true true camera0 limits 0 nullRange.

(** Camera on, a valid focus, the eye half a unit in front of the back of
    a scene ten units deep. *)
Definition cameraNear : Camera.t := Camera.mk (pi / 2) 50 (mkXYZ 50 25 (1 # 2)).
Definition viewNear : ViewState.t :=
  ViewState.mk (mkXYZ 0 0 0) (mkXYZ 100 50 1) identity3d
    true true true cameraNear limits 0
    (mkRange3d (mkXYZ 0 0 0) (mkXYZ 100 50 10)).
Definition vpNear : Viewport := mkViewport viewNear rect [].

(** A 3D view that does not allow 3D manipulations, looking along the
    world y axis, and a 2D view with that rotation. *)
Definition rotationFront : Matrix3d :=
  mkMatrix3d (mkXYZ 1 0 0) (mkXYZ 0 0 1) (mkXYZ 0 (-1) 0).
Definition viewPlanar : ViewState.t :=
  ViewState.mk (mkXYZ 0 0 0) (mkXYZ 100 50 1) rotationFront
    true false false camera0 limits 0 nullRange.
Definition vpPlanar : Viewport := mkViewport viewPlanar rect [].
Definition view2dFront : ViewState.t :=
  ViewState.mk (mkXYZ 0 0 0) (mkXYZ 100 50 1) rotationFront
    false false false camera0 limits 0 nullRange.
Definition vp2dFront : Viewport := mkViewport view2dFront rect [].

End SampleViews.

(** Further sample views: the camera inside a scene ten units deep, five
    units in front of its back; the same camera right in front of the
    scene; a planar view of that scene. *)
Module SampleScenes.
Import Sample.

Definition scene : Range3d := mkRange3d (mkXYZ 0 0 (-4)) (mkXYZ 100 50 6).

Definition cameraInside : Camera.t := Camera.mk (pi / 2) 50 (mkXYZ 50 25 1).
Definition viewInside : ViewState.t :=
  ViewState.mk (mkXYZ 0 0 0) (mkXYZ 100 50 1) identity3d
    true true true cameraInside limits 0 scene.
Definition vpInside : Viewport := mkViewport viewInside rect [].

Definition cameraFront : Camera.t :=
  Camera.mk (pi / 2) 50 (mkXYZ 50 25 (601 # 100)).
Definition viewFront : ViewState.t :=
  ViewState.mk (mkXYZ 0 0 0) (mkXYZ 100 50 1) identity3d
    true true true cameraFront limits 0 scene.
Definition vpFront : Viewport := mkViewport viewFront rect [].

(** The camera fifty units above a flat authored volume: with nothing in
    the scene, and over the scene. *)
Definition cameraAbove : Camera.t := Camera.mk (pi / 2) 50 (mkXYZ 50 25 50).
Definition viewFlatCamera : ViewState.t :=
  ViewState.mk (mkXYZ 0 0 0) (mkXYZ 100 50 0) identity3d
    true true true cameraAbove limits 0 nullRange.
Definition vpFlatCamera : Viewport := mkViewport viewFlatCamera rect [].
Definition viewFlatCameraScene : ViewState.t :=
  ViewState.mk (mkXYZ 0 0 0) (mkXYZ 100 50 0) identity3d
    true true true cameraAbove limits 0 scene.
Definition vpFlatCameraScene : Viewport := mkViewport viewFlatCameraScene rect [].

Definition viewPlanarScene : ViewState.t :=
  ViewState.mk (mkXYZ 0 0 0) (mkXYZ 100 50 1) SampleViews.rotationFront
    true false false camera0 limits 0 scene.
Definition vpPlanarScene : Viewport := mkViewport viewPlanarScene rect [].
End SampleScenes.

(** ** The z planes in binary64

    Where a property depends on how the arithmetic rounds, the rational
    model above says nothing of the program.  This module holds
    [adjustZPlanes] and what it calls once more, over the binary64 numbers
    of the language, each operation rounding as the source's does and in
    the source's order.  The view is reduced to what these functions read
    of it. *)
Module Binary64.
Local Open Scope float_scope.

Record XYZ : Type := mkXYZ { x : float; y : float; z : float }.

Definition Point3d := XYZ.
Definition Vector3d := XYZ.

Definition setZ (p : XYZ) (v : float) : XYZ := mkXYZ p.(x) p.(y) v.

(** [Point3d.createZero()] *)
Definition createZero : Point3d := mkXYZ 0 0 0.

(** Modelled from the spec: [XYZ.minus] and [XYZ.plusScaled] (geometry-core,
    not in src): coordinate-wise difference and [p + v * s]. *)
Definition minus (a b : XYZ) : XYZ :=
  mkXYZ (a.(x) - b.(x)) (a.(y) - b.(y)) (a.(z) - b.(z)).
Definition plusScaled (p v : XYZ) (s : float) : XYZ :=
  mkXYZ (p.(x) + v.(x) * s) (p.(y) + v.(y) * s) (p.(z) + v.(z) * s).

(** Modelled from the spec: [Vector3d.crossProduct] (geometry-core, not in
    src). *)
Definition crossProduct (a b : XYZ) : XYZ :=
  mkXYZ (a.(y) * b.(z) - a.(z) * b.(y))
        (a.(z) * b.(x) - a.(x) * b.(z))
        (a.(x) * b.(y) - a.(y) * b.(x)).

Record Matrix3d : Type := mkMatrix3d { rowX : XYZ; rowY : XYZ; rowZ : XYZ }.

Definition identity3d : Matrix3d :=
  mkMatrix3d (mkXYZ 1 0 0) (mkXYZ 0 1 0) (mkXYZ 0 0 1).

(** Modelled from the spec: [Matrix3d.multiplyVectorInPlace] and
    [Matrix3d.multiplyTransposeVectorInPlace] (geometry-core, not in src):
    the products matrix * vector and transpose(matrix) * vector, each
    coordinate the sum of three products taken from left to right. *)
Definition multiplyVectorInPlace (m : Matrix3d) (v : XYZ) : XYZ :=
  mkXYZ (m.(rowX).(x) * v.(x) + m.(rowX).(y) * v.(y) + m.(rowX).(z) * v.(z))
        (m.(rowY).(x) * v.(x) + m.(rowY).(y) * v.(y) + m.(rowY).(z) * v.(z))
        (m.(rowZ).(x) * v.(x) + m.(rowZ).(y) * v.(y) + m.(rowZ).(z) * v.(z)).
Definition multiplyTransposeVectorInPlace (m : Matrix3d) (v : XYZ) : XYZ :=
  mkXYZ (m.(rowX).(x) * v.(x) + m.(rowY).(x) * v.(y) + m.(rowZ).(x) * v.(z))
        (m.(rowX).(y) * v.(x) + m.(rowY).(y) * v.(y) + m.(rowZ).(y) * v.(z))
        (m.(rowX).(z) * v.(x) + m.(rowY).(z) * v.(y) + m.(rowZ).(z) * v.(z)).

Record Range3d : Type := mkRange3d { low : Point3d; high : Point3d }.

(** Modelled from the spec: [Range3d.createNull] (geometry-core, not in
    src): low is the largest and high the smallest coordinate a range may
    take, plus and minus [1.0e200]. *)
Definition extremePositive : float := 0x1.4e718d7d7625ap+664.
Definition createNull : Range3d :=
  mkRange3d (mkXYZ extremePositive extremePositive extremePositive)
            (mkXYZ (- extremePositive) (- extremePositive) (- extremePositive)).

(** Modelled from the spec: [Range3d.isNull] and [Range3d.extend] by one
    point (geometry-core, not in src). *)
Definition isNull (r : Range3d) : bool :=
  (r.(high).(x) <? r.(low).(x)) || (r.(high).(y) <? r.(low).(y))
  || (r.(high).(z) <? r.(low).(z)).
Definition extend1 (lo hi v : float) : float * float :=
  ((if v <? lo then v else lo), (if hi <? v then v else hi)).
Definition extend (r : Range3d) (p : Point3d) : Range3d :=
  let '(lx, hx) := extend1 r.(low).(x) r.(high).(x) p.(x) in
  let '(ly, hy) := extend1 r.(low).(y) r.(high).(y) p.(y) in
  let '(lz, hz) := extend1 r.(low).(z) r.(high).(z) p.(z) in
  mkRange3d (mkXYZ lx ly lz) (mkXYZ hx hy hz).

Record Plane3dByOriginAndUnitNormal : Type :=
  mkPlane { getOriginRef : Point3d; getNormalRef : Vector3d }.

Record Ray3d : Type := mkRay3d { rayOrigin : Point3d; rayDirection : Vector3d }.

(** Modelled from the spec: [Ray3d.createStartEnd] (geometry-core, not in
    src). *)
Definition createStartEnd (a b : Point3d) : Ray3d := mkRay3d a (minus b a).

Definition Frustum := list Point3d.

(** Modelled from the spec: [NpcCorners], [Frustum.fromRange],
    [Frustum.toRange] and [Frustum.multiply] (imodeljs-common, not in src):
    the corners of the unit cube, the eight corners of a range, the
    smallest range holding every corner, and every corner through the
    transform [origin + matrix * point]. *)
Definition NpcCorners : Frustum :=
  [ mkXYZ 0 0 0; mkXYZ 1 0 0; mkXYZ 0 1 0; mkXYZ 1 1 0;
    mkXYZ 0 0 1; mkXYZ 1 0 1; mkXYZ 0 1 1; mkXYZ 1 1 1 ].
Definition fromRange (r : Range3d) : Frustum :=
  let l := r.(low) in
  let h := r.(high) in
  [ mkXYZ l.(x) l.(y) l.(z); mkXYZ h.(x) l.(y) l.(z);
    mkXYZ l.(x) h.(y) l.(z); mkXYZ h.(x) h.(y) l.(z);
    mkXYZ l.(x) l.(y) h.(z); mkXYZ h.(x) l.(y) h.(z);
    mkXYZ l.(x) h.(y) h.(z); mkXYZ h.(x) h.(y) h.(z) ].
Definition toRange (f : Frustum) : Range3d := fold_left extend f createNull.

Record Transform : Type := mkTransform { trOrigin : Point3d; trMatrix : Matrix3d }.
Definition createOriginAndMatrix (o : Point3d) (m : Matrix3d) : Transform :=
  mkTransform o m.
Definition multiplyPoint3d (t : Transform) (p : Point3d) : Point3d :=
  let o := t.(trOrigin) in
  let m := t.(trMatrix) in
  mkXYZ (o.(x) + m.(rowX).(x) * p.(x) + m.(rowX).(y) * p.(y) + m.(rowX).(z) * p.(z))
        (o.(y) + m.(rowY).(x) * p.(x) + m.(rowY).(y) * p.(y) + m.(rowY).(z) * p.(z))
        (o.(z) + m.(rowZ).(x) * p.(x) + m.(rowZ).(y) * p.(y) + m.(rowZ).(z) * p.(z)).
Definition frustumMultiply (f : Frustum) (t : Transform) : Frustum :=
  map (multiplyPoint3d t) f.

Record Point4d : Type := mkPoint4d { x4 : float; y4 : float; z4 : float; w4 : float }.
Record Matrix4d : Type :=
  mkMatrix4d { row0 : Point4d; row1 : Point4d; row2 : Point4d; row3 : Point4d }.
Record Map4d : Type := mkMap4d { transform0 : Matrix4d; transform1 : Matrix4d }.

(** Modelled from the spec: [Constant.earthRadiusWGS84.equator]
    (geometry-core, not in src). *)
Definition earthRadiusWGS84_equator : float := 6378137.

(** [Math.max] of two numbers: [NaN] if either is, and [+0] over [-0]. *)
Definition Math_max (a b : float) : float :=
  if is_nan a || is_nan b then nan
  else if a <? b then b
  else if b <? a then a
  else if get_sign a then b else a.

(** What [adjustZPlanes] and [extendRangeForDisplayedPlanes] read of the
    camera and of the view. *)
Module Camera.
Record t : Type := mk { eye : Point3d }.
End Camera.

Module ViewState.
Record t : Type := mk {
  is3d : bool;
  isCameraOn : bool;
  camera : Camera.t;
  getViewedExtents : Range3d
}.
End ViewState.

(** The operations the two functions call and the file does not define;
    [computeWorldToNpc] is reduced to the map, the one field read here. *)
Class Host : Type := {
  Math_sqrt : float -> float;
  getEyePoint : ViewState.t -> Point3d;
  computeWorldToNpc :
    ViewState.t -> Matrix3d -> Point3d -> Vector3d -> bool -> option Map4d;
  intersectionWithPlane :
    Ray3d -> Plane3dByOriginAndUnitNormal -> option (float * Point3d);
  multiplyPoint3dQuietNormalize : Matrix4d -> Point3d -> Point3d
}.

Section Code.
Context {host : Host}.

(** [Vector3d.magnitude] *)
Definition magnitude (v : Vector3d) : float :=
  Math_sqrt (v.(x) * v.(x) + v.(y) * v.(y) + v.(z) * v.(z)).

(** One pass of the loop over the four side edges of the frustum in
    [extendRangeForDisplayedPlanes]. *)
Definition extendByFrustumRay (v : ViewState.t)
    (displayedPlane : Plane3dByOriginAndUnitNormal) (points : Frustum)
    (acc : Range3d * bool) (i : nat) : Range3d * bool :=
  let '(extents, includeHorizon) := acc in
  let frustumRay :=
    createStartEnd (nth (i + 4) points createZero) (nth i points createZero) in
  match intersectionWithPlane frustumRay displayedPlane with
  | Some (intersectDistance, intersect) =>
      if negb v.(ViewState.isCameraOn) || (0 <? intersectDistance)
      then (extend extents intersect, includeHorizon)
      else (extents, true)
  | None => (extents, true)
  end.

(** The loop of [extendRangeForDisplayedPlanes] over the displayed planes. *)
Fixpoint extendRangeLoop (v : ViewState.t) (rot : Matrix3d)
    (viewOrigin : Point3d) (viewDelta : Vector3d)
    (planes : list Plane3dByOriginAndUnitNormal) (extents : Range3d)
  : Range3d :=
  match planes with
  | [] => extents
  | displayedPlane :: rest =>
      let planeNormal := displayedPlane.(getNormalRef) in
      let viewZ := rot.(rowZ) in
      let onPlane := crossProduct viewZ planeNormal in
      if 0x1.5798ee2308c3ap-27 <? magnitude onPlane then
        match computeWorldToNpc v rot viewOrigin viewDelta false with
        | None => extents
        | Some worldToNpc =>
            let points :=
              map (multiplyPoint3dQuietNormalize worldToNpc.(transform1)) NpcCorners in
            let '(extents, includeHorizon) :=
              fold_left (extendByFrustumRay v displayedPlane points)
                        [0; 1; 2; 3]%nat (extents, false) in
            let extents :=
              if includeHorizon then
                let horizonDistance := 10000 in
                let eyePoint := getEyePoint v in
                let eyeHeight := eyePoint.(z) in
                let horizonDistance :=
                  if 0 <? eyeHeight
                  then Math_max horizonDistance
                         (Math_sqrt (eyeHeight * eyeHeight
                                     + 2 * eyeHeight * earthRadiusWGS84_equator))
                  else horizonDistance in
                extend extents (plusScaled eyePoint viewZ (- horizonDistance))
              else extents in
            let extents :=
              if v.(ViewState.isCameraOn) then
                let minimumEyeDistance := 10 in
                extend extents (plusScaled (getEyePoint v) viewZ (- minimumEyeDistance))
              else extents in
            extendRangeLoop v rot viewOrigin viewDelta rest extents
        end
      else
        let extents :=
          extend extents (plusScaled displayedPlane.(getOriginRef) planeNormal (-1)) in
        let extents :=
          extend extents (plusScaled displayedPlane.(getOriginRef) planeNormal 1) in
        extendRangeLoop v rot viewOrigin viewDelta rest extents
  end.

(** [extendRangeForDisplayedPlanes]: the range left in [extents]. *)
Definition extendRangeForDisplayedPlanes (v : ViewState.t) (rot : Matrix3d)
    (viewOrigin : Point3d) (viewDelta : Vector3d)
    (planes : list Plane3dByOriginAndUnitNormal) (extents : Range3d)
  : Range3d :=
  if negb v.(ViewState.is3d) then extents
  else extendRangeLoop v rot viewOrigin viewDelta planes extents.

(** The viewed extents once the displayed planes are taken in, and the
    same as min/max in view aligned coordinates. *)
Definition extendedViewedExtents (v : ViewState.t) (rot : Matrix3d)
    (viewOrigin : Point3d) (viewDelta : Vector3d)
    (planes : list Plane3dByOriginAndUnitNormal) : Range3d :=
  extendRangeForDisplayedPlanes v rot viewOrigin viewDelta planes
    v.(ViewState.getViewedExtents).
Definition viewAlignedExtents (rot : Matrix3d) (extents : Range3d) : Range3d :=
  let viewTransform := createOriginAndMatrix createZero rot in
  let extFrust := fromRange extents in
  let extFrust := frustumMultiply extFrust viewTransform in
  toRange extFrust.

(** [adjustZPlanes]: the values left in [origin] and [delta]. *)
Definition adjustZPlanes (v : ViewState.t) (rot : Matrix3d)
    (viewOrigin : Point3d) (viewDelta : Vector3d)
    (planes : list Plane3dByOriginAndUnitNormal)
    (origin : Point3d) (delta : Vector3d) : Point3d * Vector3d :=
  if negb v.(ViewState.is3d) then (origin, delta)
  else
    let extents := extendedViewedExtents v rot viewOrigin viewDelta planes in
    if isNull extents then (origin, delta)
    else
      let extents := viewAlignedExtents rot extents in
      let origin := multiplyVectorInPlace rot origin in
      let origin := setZ origin extents.(low).(z) in
      let delta := setZ delta (extents.(high).(z) - origin.(z)) in
      let origin := multiplyTransposeVectorInPlace rot origin in
      if negb v.(ViewState.isCameraOn) then (origin, delta)
      else
        let eyeOrg := minus v.(ViewState.camera).(Camera.eye) origin in
        let eyeOrg := multiplyVectorInPlace rot eyeOrg in
        if eyeOrg.(z) <? 1 then
          let origin := multiplyVectorInPlace rot origin in
          let origin := setZ origin (origin.(z) - (2 - eyeOrg.(z))) in
          let origin := multiplyTransposeVectorInPlace rot origin in
          (origin, setZ delta 1)
        else if eyeOrg.(z) <? delta.(z) then (origin, setZ delta eyeOrg.(z))
        else (origin, delta).

(** The back of the viewed extents and the eye seen from it, as
    [adjustZPlanes] computes them before its test on the eye. *)
Definition backOrigin (v : ViewState.t) (rot : Matrix3d)
    (viewOrigin : Point3d) (viewDelta : Vector3d)
    (planes : list Plane3dByOriginAndUnitNormal) (origin : Point3d) : Point3d :=
  let extents :=
    viewAlignedExtents rot
      (extendedViewedExtents v rot viewOrigin viewDelta planes) in
  multiplyTransposeVectorInPlace rot
    (setZ (multiplyVectorInPlace rot origin) extents.(low).(z)).
Definition eyeFromBack (v : ViewState.t) (rot : Matrix3d)
    (viewOrigin : Point3d) (viewDelta : Vector3d)
    (planes : list Plane3dByOriginAndUnitNormal) (origin : Point3d) : Vector3d :=
  multiplyVectorInPlace rot
    (minus v.(ViewState.camera).(Camera.eye)
       (backOrigin v rot viewOrigin viewDelta planes origin)).

(** The claim on the branch of the eye too close to the back: when the
    test [eyeOrg.z < 1] succeeds, on return [delta.z] is 1 and the eye is
    2 in front of the origin, in view coordinates. *)
Definition eye_two_in_front (v : ViewState.t) (rot : Matrix3d)
    (viewOrigin : Point3d) (viewDelta : Vector3d)
    (planes : list Plane3dByOriginAndUnitNormal)
    (origin : Point3d) (delta : Vector3d) : Prop :=
  let eyeOrg := eyeFromBack v rot viewOrigin viewDelta planes origin in
  let result := adjustZPlanes v rot viewOrigin viewDelta planes origin delta in
  v.(ViewState.is3d) = true ->
  v.(ViewState.isCameraOn) = true ->
  isNull (extendedViewedExtents v rot viewOrigin viewDelta planes) = false ->
  (eyeOrg.(z) <? 1) = true ->
  (snd result).(z) = 1
  /\ (multiplyVectorInPlace rot
        (minus v.(ViewState.camera).(Camera.eye) (fst result))).(z) = 2.
End Code.

(** A host for a viewport without displayed planes: the loop over the
    planes does not run, and none of its operations is called. *)
Definition hostWithoutPlanes : Host :=
  Build_Host PrimFloat.sqrt (fun v => v.(ViewState.camera).(Camera.eye))
    (fun _ _ _ _ _ => None) (fun _ _ => None) (fun _ p => p).

(** Three camera views of a scene that reaches up to z = 10, with the
    identity rotation: the eye half a unit in front of the back of the
    scene at z = 0; the eye at z = 0.7 in front of the back of the scene at
    z = 0.1; and the eye at z = 0.3 in front of the back of the scene at
    z = -0.7. *)
Definition cameraHalf : Camera.t := Camera.mk (mkXYZ 50 25 (1 / 2)).
Definition viewHalf : ViewState.t :=
  ViewState.mk true true cameraHalf (mkRange3d (mkXYZ 0 0 0) (mkXYZ 100 50 10)).
Definition cameraTenths : Camera.t :=
  Camera.mk (mkXYZ 50 25 0x1.6666666666666p-1).
Definition viewTenths : ViewState.t :=
  ViewState.mk true true cameraTenths
    (mkRange3d (mkXYZ 0 0 0x1.999999999999ap-4) (mkXYZ 100 50 10)).
Definition cameraBoundary : Camera.t :=
  Camera.mk (mkXYZ 50 25 0x1.3333333333333p-2).
Definition viewBoundary : ViewState.t :=
  ViewState.mk true true cameraBoundary
    (mkRange3d (mkXYZ 0 0 (-0x1.6666666666666p-1)) (mkXYZ 100 50 10)).

End Binary64.

(** ** What the plane extension is measured with *)

(** A range lies within another, and a point lies within a range. *)
Definition rangeWithin (inner outer : Range3d) : Prop :=
  outer.(low).(x) <= inner.(low).(x) /\ outer.(low).(y) <= inner.(low).(y)
  /\ outer.(low).(z) <= inner.(low).(z) /\ inner.(high).(x) <= outer.(high).(x)
  /\ inner.(high).(y) <= outer.(high).(y) /\ inner.(high).(z) <= outer.(high).(z).
Definition containsPoint (r : Range3d) (p : Point3d) : Prop :=
  r.(low).(x) <= p.(x) <= r.(high).(x) /\ r.(low).(y) <= p.(y) <= r.(high).(y)
  /\ r.(low).(z) <= p.(z) <= r.(high).(z).

Section PlaneTests.
Context {host : Host}.

(** The test of [extendRangeForDisplayedPlanes] on a displayed plane, with
    its outcome reversed: the plane is parallel to the view. *)
Definition parallelToView (rot : Matrix3d) (p : Plane3dByOriginAndUnitNormal) : bool :=
  negb (gtb (magnitude (crossProduct rot.(rowZ) p.(getNormalRef))) (1 # 100000000)).

(** The displayed planes up to the first that is not parallel to the view. *)
Fixpoint leadingParallel (rot : Matrix3d) (planes : list Plane3dByOriginAndUnitNormal)
  : list Plane3dByOriginAndUnitNormal :=
  match planes with
  | [] => []
  | p :: rest => if parallelToView rot p then p :: leadingParallel rot rest else []
  end.
End PlaneTests.

(** What the loop does for a plane parallel to the view. *)
Definition extendByParallelPlane (extents : Range3d)
    (p : Plane3dByOriginAndUnitNormal) : Range3d :=
  extend (extend extents (plusScaled p.(getOriginRef) p.(getNormalRef) (-1)))
         (plusScaled p.(getOriginRef) p.(getNormalRef) 1).

(** ** The claims as predicates, and the shape of what the code stores *)

(** The extents as the constructor stores them before any adjustment: the
    absolute value of each component, x and y clamped to the limits. *)
Definition clampedExtents (v : ViewState.t) : Vector3d :=
  let d := v.(ViewState.getExtents) in
  let limits := v.(ViewState.extentLimits) in
  mkXYZ (clampRange limits (Qabs d.(x))) (clampRange limits (Qabs d.(y)))
        (Qabs d.(z)).

(** A point differs from another under the exact compare. *)
Definition differs (a b : XYZ) : Prop := isExactEqual a b = false.

(** The view without its rotation and its camera. *)
Definition sameButRotationAndCamera (a b : ViewState.t) : Prop :=
  a.(ViewState.getOrigin) = b.(ViewState.getOrigin)
  /\ a.(ViewState.getExtents) = b.(ViewState.getExtents)
  /\ a.(ViewState.is3d) = b.(ViewState.is3d)
  /\ a.(ViewState.allow3dManipulations) = b.(ViewState.allow3dManipulations)
  /\ a.(ViewState.isCameraOn) = b.(ViewState.isCameraOn)
  /\ a.(ViewState.extentLimits) = b.(ViewState.extentLimits)
  /\ a.(ViewState.forceMinFrontDist) = b.(ViewState.forceMinFrontDist)
  /\ a.(ViewState.getViewedExtents) = b.(ViewState.getViewedExtents).

(** The five results of [adjustVolume]. *)
Definition av_rotation (r : Matrix3d * ViewState.t * Point3d * Vector3d * bool) :=
  fst (fst (fst (fst r))).
Definition av_view (r : Matrix3d * ViewState.t * Point3d * Vector3d * bool) :=
  snd (fst (fst (fst r))).
Definition av_origin (r : Matrix3d * ViewState.t * Point3d * Vector3d * bool) :=
  snd (fst (fst r)).
Definition av_delta (r : Matrix3d * ViewState.t * Point3d * Vector3d * bool) :=
  snd (fst r).
Definition av_zClipAdjusted (r : Matrix3d * ViewState.t * Point3d * Vector3d * bool) :=
  snd r.

(** The claims that the code does not meet, as predicates of a viewport
    and of the ViewingSpace built for it. *)

(** The flag is set exactly when the expanded volume differs from the
    unexpanded one. *)
Definition zClipAdjusted_exactly_when_differs (vs : ViewingSpace) : Prop :=
  vs.(zClipAdjusted) = true
  <-> (differs vs.(viewOrigin) vs.(viewOriginUnexpanded)
       \/ differs vs.(viewDelta) vs.(viewDeltaUnexpanded)).


(** The unexpanded pair is the origin and the extents of the view. *)
Definition unexpanded_as_authored (v : ViewState.t) (vs : ViewingSpace) : Prop :=
  vs.(viewOriginUnexpanded) = v.(ViewState.getOrigin)
  /\ vs.(viewDeltaUnexpanded) = v.(ViewState.getExtents).

(** The depth floor of one unit in each direction. *)
Definition depth_floor (vs : ViewingSpace) : Prop := 2 <= vs.(viewDelta).(z).

(** ** Comparisons *)

Lemma ltb_true_iff (a b : Q) : ltb a b = true <-> a < b.
Proof.
  unfold ltb. rewrite negb_true_iff.
  split; intro H.
  - apply Qnot_le_lt. intro Hle. apply Qle_bool_iff in Hle. congruence.
  - destruct (Qle_bool b a) eqn:E; [|reflexivity].
    apply Qle_bool_iff in E. exfalso. apply (Qlt_not_le _ _ H E).
Qed.

Lemma ltb_false_iff (a b : Q) : ltb a b = false <-> b <= a.
Proof.
  unfold ltb. rewrite negb_false_iff. apply Qle_bool_iff.
Qed.

Lemma Qmax_ge_r (a b : Q) : b <= Qmax a b.
Proof. apply Q.le_max_r. Qed.

Lemma Qmax_ge_l (a b : Q) : a <= Qmax a b.
Proof. apply Q.le_max_l. Qed.

Lemma clampRange_le_max (l : ExtentLimits.t) (v : Q) :
  clampRange l v <= l.(ExtentLimits.max).
Proof. unfold clampRange. apply Q.le_min_r. Qed.

Lemma clampRange_ge_min (l : ExtentLimits.t) (v : Q) :
  l.(ExtentLimits.min) <= l.(ExtentLimits.max) ->
  l.(ExtentLimits.min) <= clampRange l v.
Proof.
  intro H. unfold clampRange. apply Q.min_glb; [apply Q.le_max_l | exact H].
Qed.

Lemma clampRange_nonneg (l : ExtentLimits.t) (v : Q) :
  0 <= l.(ExtentLimits.max) -> 0 <= v -> 0 <= clampRange l v.
Proof.
  intros Hmax Hv. unfold clampRange. apply Q.min_glb; [|exact Hmax].
  apply Qle_trans with v; [exact Hv | apply Q.le_max_r].
Qed.

(** ** Ranges: extending keeps low below high *)

Lemma extend1_ordered (lo hi v : Q) :
  lo <= hi -> fst (extend1 lo hi v) <= snd (extend1 lo hi v).
Proof.
  intro H. unfold extend1, gtb. simpl.
  destruct (ltb v lo) eqn:E1; destruct (ltb hi v) eqn:E2;
    try apply ltb_true_iff in E1; try apply ltb_true_iff in E2;
    try apply ltb_false_iff in E1; try apply ltb_false_iff in E2; lra.
Qed.

Lemma extend_z (r : Range3d) (p : Point3d) :
  (extend r p).(low).(z) = fst (extend1 r.(low).(z) r.(high).(z) p.(z))
  /\ (extend r p).(high).(z) = snd (extend1 r.(low).(z) r.(high).(z) p.(z)).
Proof. split; reflexivity. Qed.

Lemma extend_z_ordered (r : Range3d) (p : Point3d) :
  r.(low).(z) <= r.(high).(z) -> (extend r p).(low).(z) <= (extend r p).(high).(z).
Proof.
  intro H. destruct (extend_z r p) as [-> ->]. apply extend1_ordered, H.
Qed.

Lemma fold_extend_z_ordered (ps : list Point3d) (r : Range3d) :
  r.(low).(z) <= r.(high).(z) ->
  (fold_left extend ps r).(low).(z) <= (fold_left extend ps r).(high).(z).
Proof.
  revert r. induction ps as [|p ps IH]; intros r H; simpl.
  - exact H.
  - apply IH, extend_z_ordered, H.
Qed.

Lemma toRange_z_ordered (f : Frustum) :
  f <> [] -> (toRange f).(low).(z) <= (toRange f).(high).(z).
Proof.
  destruct f as [|p ps]; [congruence|]. intros _. simpl.
  apply fold_extend_z_ordered. simpl. apply Qle_refl.
Qed.

Lemma viewAlignedExtents_z_ordered (rot : Matrix3d) (r : Range3d) :
  (viewAlignedExtents rot r).(low).(z) <= (viewAlignedExtents rot r).(high).(z).
Proof.
  unfold viewAlignedExtents. apply toRange_z_ordered.
  unfold frustumMultiply, fromRange. simpl. discriminate.
Qed.

(** ** What the constructor does to [origin], [delta] and the view *)

Section Construction.
Context {host : Host}.

(** Case analysis on every test of the goal. *)
Ltac split_tests :=
  repeat match goal with
         | |- context [if ?c then _ else _] => destruct c eqn:?
         end.

Lemma adjustZPlanes_delta_xy v rot o0 d0 planes origin delta :
  (snd (adjustZPlanes v rot o0 d0 planes origin delta)).(x) = delta.(x)
  /\ (snd (adjustZPlanes v rot o0 d0 planes origin delta)).(y) = delta.(y).
Proof. unfold adjustZPlanes. split_tests; cbn [fst snd x y setZ]; auto. Qed.

Lemma adjustZPlanes_delta_z_nonneg v rot o0 d0 planes origin delta :
  0 <= delta.(z) ->
  0 <= (snd (adjustZPlanes v rot o0 d0 planes origin delta)).(z).
Proof.
  intro Hz. unfold adjustZPlanes.
  destruct (negb v.(ViewState.is3d)); [exact Hz|].
  destruct (isNull _); [exact Hz|].
  generalize (viewAlignedExtents_z_ordered rot
                (extendedViewedExtents v rot o0 d0 planes)).
  generalize (viewAlignedExtents rot (extendedViewedExtents v rot o0 d0 planes)).
  intros ext Hord. cbv zeta.
  destruct (negb v.(ViewState.isCameraOn)).
  - cbn [snd z setZ]. lra.
  - match goal with
    | |- context [ltb ?e 1] => generalize e
    end.
    intro e. destruct (ltb e 1) eqn:He; cbn [snd z setZ]; [lra|].
    apply ltb_false_iff in He.
    destruct (gtb _ e); cbn [snd z setZ]; lra.
Qed.

(** A view that is not 3D is left alone by the z plane adjustment. *)
Lemma adjustZPlanes_2d v rot o0 d0 planes origin delta :
  v.(ViewState.is3d) = false ->
  adjustZPlanes v rot o0 d0 planes origin delta = (origin, delta).
Proof. intro H. unfold adjustZPlanes. rewrite H. reflexivity. Qed.

Lemma alignWithRootZ_frame rot v :
  sameButRotationAndCamera (snd (alignWithRootZ rot v)) v
  /\ (snd (alignWithRootZ rot v)).(ViewState.camera) = v.(ViewState.camera).
Proof.
  unfold alignWithRootZ, sameButRotationAndCamera.
  destruct (isAlmostEqual unitZ rot.(rowZ)); simpl; repeat split; reflexivity.
Qed.

Lemma validateCamera_frame rot v :
  sameButRotationAndCamera (validateCamera rot v) v
  /\ (validateCamera rot v).(ViewState.getRotation) = v.(ViewState.getRotation).
Proof.
  unfold validateCamera, sameButRotationAndCamera.
  destruct (negb v.(ViewState.is3d)); [repeat split; reflexivity|].
  destruct (isFocusValid (validateLens v.(ViewState.camera)));
    simpl; repeat split; reflexivity.
Qed.

(** The constructor stores what [adjustVolume] computes, next to the
    unexpanded pair. *)
Lemma construct_fields vp planes :
  let v := vp.(view) in
  let r := adjustVolume v v.(ViewState.getRotation) planes
             v.(ViewState.getOrigin) (clampedExtents v) in
  let vs := fst (construct vp planes) in
  vs.(viewOrigin) = av_origin r /\ vs.(viewDelta) = av_delta r
  /\ vs.(viewOriginUnexpanded) = v.(ViewState.getOrigin)
  /\ vs.(viewDeltaUnexpanded) = clampedExtents v
  /\ vs.(rotation) = av_rotation r
  /\ vs.(zClipAdjusted) = av_zClipAdjusted r
  /\ vs.(clientWidth) = width vp.(viewRect)
  /\ vs.(clientHeight) = height vp.(viewRect)
  /\ snd (construct vp planes) = av_view r.
Proof.
  cbv zeta. unfold construct, runConstructor, clampedExtents. cbv zeta. simpl.
  destruct (adjustVolume _ _ _ _ _) as [[[[rot' v'] o'] d'] zc].
  unfold av_origin, av_delta, av_rotation, av_zClipAdjusted, av_view. simpl.
  destruct (WorldToNpc.map _); [destruct (calcNpcToView _)|];
    simpl; repeat split; reflexivity.
Qed.

(** [adjustVolume] only ever writes the z component of [delta]. *)
Lemma adjustVolume_delta_xy v rot planes o0 d0 :
  (av_delta (adjustVolume v rot planes o0 d0)).(x) = d0.(x)
  /\ (av_delta (adjustVolume v rot planes o0 d0)).(y) = d0.(y).
Proof.
  unfold adjustVolume, av_delta.
  destruct v.(ViewState.is3d); [destruct (negb v.(ViewState.allow3dManipulations))|].
  - destruct (alignWithRootZ rot v) as [rot' v']. cbn [fst snd setZ x y]. auto.
  - set (v1 := if v.(ViewState.isCameraOn) then validateCamera rot v else v).
    pose proof (adjustZPlanes_delta_xy v1 rot o0 d0 planes o0 d0) as H.
    destruct (adjustZPlanes v1 rot o0 d0 planes o0 d0) as [o d].
    cbn [fst snd] in *. exact H.
  - destruct (alignWithRootZ rot v) as [rot' v']. cbn [fst snd setZ x y]. auto.
Qed.

Lemma adjustVolume_delta_z_nonneg v rot planes o0 d0 :
  0 <= d0.(z) -> 0 <= (av_delta (adjustVolume v rot planes o0 d0)).(z).
Proof.
  intro Hz. unfold adjustVolume, av_delta.
  destruct v.(ViewState.is3d); [destruct (negb v.(ViewState.allow3dManipulations))|].
  - destruct (alignWithRootZ rot v) as [rot' v']. cbn [fst snd setZ z].
    match goal with
    | |- 0 <= 2 * Qmax ?a 1 =>
        generalize (Qmax_ge_r a 1); generalize (Qmax a 1)
    end.
    intros m Hm. lra.
  - set (v1 := if v.(ViewState.isCameraOn) then validateCamera rot v else v).
    pose proof (adjustZPlanes_delta_z_nonneg v1 rot o0 d0 planes o0 d0 Hz) as H.
    destruct (adjustZPlanes v1 rot o0 d0 planes o0 d0) as [o d].
    cbn [fst snd] in *. exact H.
  - destruct (alignWithRootZ rot v) as [rot' v']. cbn [fst snd setZ z].
    unfold frustumDepth2d, oneMeter. lra.
Qed.

(** The flag is computed in one branch only: a 3D view that allows 3D
    manipulations. *)
Lemma adjustVolume_zClipAdjusted v rot planes o0 d0 :
  let r := adjustVolume v rot planes o0 d0 in
  av_zClipAdjusted r =
    (v.(ViewState.is3d) && v.(ViewState.allow3dManipulations))
    && (negb (isExactEqual (av_origin r) o0) || negb (isExactEqual (av_delta r) d0)).
Proof.
  cbv zeta. unfold adjustVolume, av_zClipAdjusted, av_origin, av_delta.
  destruct v.(ViewState.is3d); [destruct v.(ViewState.allow3dManipulations)|];
    cbn [negb andb].
  - set (v1 := if v.(ViewState.isCameraOn) then validateCamera rot v else v).
    destruct (adjustZPlanes v1 rot o0 d0 planes o0 d0) as [o d].
    cbn [fst snd]. reflexivity.
  - destruct (alignWithRootZ rot v) as [rot' v']. reflexivity.
  - destruct (alignWithRootZ rot v) as [rot' v']. reflexivity.
Qed.

(** The view [adjustVolume] leaves behind. *)
Lemma adjustVolume_view v rot planes o0 d0 :
  av_view (adjustVolume v rot planes o0 d0) =
    if v.(ViewState.is3d) && v.(ViewState.allow3dManipulations)
    then (if v.(ViewState.isCameraOn) then validateCamera rot v else v)
    else snd (alignWithRootZ rot v).
Proof.
  unfold adjustVolume, av_view.
  destruct v.(ViewState.is3d); [destruct v.(ViewState.allow3dManipulations)|];
    cbn [negb andb].
  - set (v1 := if v.(ViewState.isCameraOn) then validateCamera rot v else v).
    destruct (adjustZPlanes v1 rot o0 d0 planes o0 d0) as [o d].
    cbn [fst snd]. reflexivity.
  - destruct (alignWithRootZ rot v) as [rot' v']. reflexivity.
  - destruct (alignWithRootZ rot v) as [rot' v']. reflexivity.
Qed.

(** The rotation [adjustVolume] leaves in the ViewingSpace. *)
Lemma adjustVolume_rotation v rot planes o0 d0 :
  av_rotation (adjustVolume v rot planes o0 d0) =
    if v.(ViewState.is3d) && v.(ViewState.allow3dManipulations)
    then rot
    else fst (alignWithRootZ rot v).
Proof.
  unfold adjustVolume, av_rotation.
  destruct v.(ViewState.is3d); [destruct v.(ViewState.allow3dManipulations)|];
    cbn [negb andb].
  - set (v1 := if v.(ViewState.isCameraOn) then validateCamera rot v else v).
    destruct (adjustZPlanes v1 rot o0 d0 planes o0 d0) as [o d].
    cbn [fst snd]. reflexivity.
  - destruct (alignWithRootZ rot v) as [rot' v']. reflexivity.
  - destruct (alignWithRootZ rot v) as [rot' v']. reflexivity.
Qed.

(** The depth band of a 2D view. *)
Lemma adjustVolume_2d v rot planes o0 d0 :
  v.(ViewState.is3d) = false ->
  let r := adjustVolume v rot planes o0 d0 in
  av_delta r = setZ d0 (2 * frustumDepth2d)
  /\ av_origin r = setZ o0 (- frustumDepth2d).
Proof.
  intro H. cbv zeta. unfold adjustVolume, av_delta, av_origin. rewrite H.
  destruct (alignWithRootZ rot v) as [rot' v']. split; reflexivity.
Qed.

(** The depth band of a 3D view that does not allow 3D manipulations. *)
Lemma adjustVolume_planar v rot planes o0 d0 :
  v.(ViewState.is3d) = true ->
  v.(ViewState.allow3dManipulations) = false ->
  let r := adjustVolume v rot planes o0 d0 in
  exists zMax, 1 <= zMax
    /\ av_delta r = setZ d0 (2 * zMax) /\ av_origin r = setZ o0 (- zMax)
    /\ (isNull v.(ViewState.getViewedExtents) = true -> zMax = 1).
Proof.
  intros H3 Hm. cbv zeta. unfold adjustVolume, av_delta, av_origin.
  rewrite H3, Hm. cbn [negb].
  pose proof (alignWithRootZ_frame rot v) as [Hf _].
  destruct (alignWithRootZ rot v) as [rot' v']. cbn [fst snd] in *.
  destruct Hf as (_ & _ & _ & _ & _ & _ & _ & He). rewrite He.
  eexists. split; [apply Qmax_ge_r|]. split; [reflexivity|]. split; [reflexivity|].
  intros ->. reflexivity.
Qed.
End Construction.

(** ** The factories *)

Section Factories.
Context {host : Host}.

(** The view corners of the constructed ViewingSpace are those of the view
    rectangle of the viewport. *)
Lemma getViewCorners_construct vp planes :
  getViewCorners (fst (construct vp planes)) =
    mkRange3d (mkXYZ 0 (height vp.(viewRect)) (-32767))
              (mkXYZ (width vp.(viewRect)) 0 32767).
Proof.
  destruct (construct_fields vp planes) as (_ & _ & _ & _ & _ & _ & Hw & Hh & _).
  unfold getViewCorners, viewRectInit. cbn [right bottom].
  rewrite Hw, Hh. reflexivity.
Qed.

(** The constructor throws exactly when there is a world-to-NPC map, no
    box map onto the view corners, and assertions are enabled. *)
Lemma constructorThrows_iff vp planes :
  let v := vp.(view) in
  let r := adjustVolume v v.(ViewState.getRotation) planes
             v.(ViewState.getOrigin) (clampedExtents v) in
  let newRootToNpc :=
    computeWorldToNpc (av_view r) (av_rotation r) (av_origin r) (av_delta r)
      (Nat.eqb 0 (length planes)) in
  let corners := getViewCorners (fst (construct vp planes)) in
  constructorThrows vp planes = true
  <-> (newRootToNpc.(WorldToNpc.map) <> None
       /\ createBoxMap Npc_000 Npc_111 corners.(low) corners.(high) = None
       /\ assertionsEnabled = true).
Proof.
  cbv zeta. rewrite getViewCorners_construct. cbn [low high].
  unfold constructorThrows, runConstructor, clampedExtents. cbv zeta.
  destruct (adjustVolume _ _ _ _ _) as [[[[rot' v'] o'] d'] zc].
  unfold av_origin, av_delta, av_rotation, av_view. cbn [fst snd].
  destruct (WorldToNpc.map _) as [m|]; cbn [fst snd].
  - unfold calcNpcToView, getViewCorners, viewRectInit.
    cbn [clientWidth clientHeight low high right bottom].
    destruct (createBoxMap _ _ _ _); [|destruct assertionsEnabled];
      cbn [fst snd clientWidth clientHeight].
    + split; [discriminate | intros (_ & H & _); discriminate H].
    + split; [intros _; repeat split; discriminate | reflexivity].
    + split; [discriminate | intros (_ & _ & H); discriminate H].
  - split; [discriminate | intros (H & _); congruence].
Qed.

(** [createFromViewport] returns the object it constructed, whatever its
    [frustFraction], unless the constructor throws. *)
Lemma createFromViewport_returns vp :
  fst (createFromViewport vp) =
    if constructorThrows vp vp.(getDisplayedPlanes) then None
    else Some (fst (construct vp vp.(getDisplayedPlanes))).
Proof.
  unfold createFromViewport, constructorThrows, construct.
  destruct (runConstructor vp vp.(getDisplayedPlanes)) as [[vs v] threw].
  reflexivity.
Qed.

(** [createFromViewportAndPlane] gives no object exactly when the
    constructor throws or the [frustFraction] of the object it constructed
    is 0. *)
Lemma createFromViewportAndPlane_none_iff vp plane :
  let planes := vp.(getDisplayedPlanes) ++ [plane] in
  fst (createFromViewportAndPlane vp plane) = None
  <-> (constructorThrows vp planes = true
       \/ (fst (construct vp planes)).(frustFraction) == 0).
Proof.
  cbv zeta. unfold createFromViewportAndPlane, constructorThrows, construct.
  destruct (runConstructor vp (vp.(getDisplayedPlanes) ++ [plane]))
    as [[vs v] threw].
  cbn [fst snd]. destruct threw.
  - split; [left; reflexivity | reflexivity].
  - destruct (Qeq_bool 0 vs.(frustFraction)) eqn:E.
    + apply Qeq_bool_iff in E.
      split; [intros _; right; symmetry; exact E | reflexivity].
    + apply Qeq_bool_neq in E. split; [discriminate|].
      intros [H | H]; [discriminate|]. exfalso. apply E. symmetry. exact H.
Qed.

(** The constructor sets [frustFraction] to 0 when the world-to-NPC map
    builder reports no map for the adjusted volume, and otherwise stores
    the frustum fraction and the map it reports. *)
Lemma construct_frustFraction vp planes :
  let v := vp.(view) in
  let r := adjustVolume v v.(ViewState.getRotation) planes
             v.(ViewState.getOrigin) (clampedExtents v) in
  let newRootToNpc :=
    computeWorldToNpc (av_view r) (av_rotation r) (av_origin r) (av_delta r)
      (Nat.eqb 0 (length planes)) in
  let vs := fst (construct vp planes) in
  match newRootToNpc.(WorldToNpc.map) with
  | None => vs.(frustFraction) = 0
  | Some m =>
      vs.(frustFraction) = newRootToNpc.(WorldToNpc.frustFraction)
      /\ vs.(worldToNpcMap) = m
  end.
Proof.
  cbv zeta. unfold construct, runConstructor, clampedExtents. cbv zeta.
  destruct (adjustVolume _ _ _ _ _) as [[[[rot' v'] o'] d'] zc].
  unfold av_origin, av_delta, av_rotation, av_view. cbn [fst snd].
  destruct (WorldToNpc.map _); [destruct (calcNpcToView _)|];
    cbn [fst frustFraction worldToNpcMap]; [split| split |]; reflexivity.
Qed.

(** C1 (the code where it departs from the claim).  Whenever the
    world-to-NPC map builder reports no map for the adjusted volume of the
    viewport, [createFromViewport] still returns an object, and the
    [frustFraction] of that object is 0. *)
Theorem createFromViewport_exposes_invalid_frustum (vp : Viewport) :
  let v := vp.(view) in
  let planes := vp.(getDisplayedPlanes) in
  let r := adjustVolume v v.(ViewState.getRotation) planes
             v.(ViewState.getOrigin) (clampedExtents v) in
  (computeWorldToNpc (av_view r) (av_rotation r) (av_origin r) (av_delta r)
     (Nat.eqb 0 (length planes))).(WorldToNpc.map) = None ->
  exists vs, fst (createFromViewport vp) = Some vs /\ vs.(frustFraction) = 0.
Proof.
  cbv zeta. intro Hmap.
  exists (fst (construct vp vp.(getDisplayedPlanes))).
  split.
  - rewrite createFromViewport_returns.
    destruct (constructorThrows vp vp.(getDisplayedPlanes)) eqn:Ht; [|reflexivity].
    apply constructorThrows_iff in Ht. destruct Ht as (Hm & _).
    exfalso. apply Hm. exact Hmap.
  - pose proof (construct_frustFraction vp vp.(getDisplayedPlanes)) as H.
    cbv zeta in H. rewrite Hmap in H. exact H.
Qed.
End Factories.

(** C1 (witness).  [SampleScenes.vpFlatCamera] has its camera on and a
    flat volume, for which the map builder has no world-to-NPC map:
    [createFromViewport] returns its ViewingSpace, with a [frustFraction]
    of 0. *)
Lemma createFromViewport_exposes_invalid_frustum_witness :
  exists vs,
    fst (createFromViewport (host := Sample.host) SampleScenes.vpFlatCamera)
      = Some vs
    /\ vs.(frustFraction) = 0.
Proof.
  apply (createFromViewport_exposes_invalid_frustum (host := Sample.host)
           SampleScenes.vpFlatCamera).
  vm_compute. reflexivity.
Defined.

(** On the same viewport, with a vertical plane, the other factory returns
    no object. *)
Lemma createFromViewportAndPlane_flat_volume :
  fst (createFromViewportAndPlane (host := Sample.host) SampleScenes.vpFlatCamera
         (mkPlane (mkXYZ 0 0 0) (mkXYZ 1 0 0))) = None.
Proof. vm_compute. reflexivity. Qed.

(** With the camera off the same flat volume is given a depth of one by the
    map builder, and the object has a map. *)
Lemma createFromViewport_flat_camera_off :
  let vp := mkViewport (ViewState.mk (mkXYZ 0 0 0) (mkXYZ 100 50 0) identity3d
                          true true false Sample.camera0 Sample.limits 0
                          Sample.nullRange) Sample.rect [] in
  exists vs,
    fst (createFromViewport (host := Sample.host) vp) = Some vs
    /\ vs.(frustFraction) = 1.
Proof. cbv zeta. eexists. split; vm_compute; reflexivity. Qed.

(** ** The constructed ViewingSpace *)

Section Constructed.
Context {host : Host}.

(** C2 (amended).  For every constructed ViewingSpace, [zClipAdjusted] is
    true if and only if the view is 3D, allows 3D manipulations, and
    [viewOrigin] differs from [viewOriginUnexpanded] or [viewDelta] differs
    from [viewDeltaUnexpanded] under the exact compare.  For 2D views and
    for 3D views that do not allow manipulations the flag stays false. *)
Theorem zClipAdjusted_iff (vp : Viewport)
    (planes : list Plane3dByOriginAndUnitNormal) :
  let v := vp.(view) in
  let vs := fst (construct vp planes) in
  vs.(zClipAdjusted) = true
  <-> (v.(ViewState.is3d) = true /\ v.(ViewState.allow3dManipulations) = true
       /\ (differs vs.(viewOrigin) vs.(viewOriginUnexpanded)
           \/ differs vs.(viewDelta) vs.(viewDeltaUnexpanded))).
Proof.
  cbv zeta.
  destruct (construct_fields vp planes) as (Ho & Hd & Hou & Hdu & _ & Hz & _).
  rewrite Hz, Ho, Hd, Hou, Hdu, adjustVolume_zClipAdjusted. unfold differs.
  rewrite andb_true_iff, andb_true_iff, orb_true_iff, !negb_true_iff.
  tauto.
Qed.


(** C4 (amended).  For every constructed ViewingSpace,
    [viewOriginUnexpanded] is the origin of the view, and
    [viewDeltaUnexpanded] is the extents of the view after the absolute
    value of each component was taken and x and y were clamped to the
    extent limits. *)
Theorem unexpanded_volume (vp : Viewport)
    (planes : list Plane3dByOriginAndUnitNormal) :
  let v := vp.(view) in
  let vs := fst (construct vp planes) in
  let d := v.(ViewState.getExtents) in
  let limits := v.(ViewState.extentLimits) in
  vs.(viewOriginUnexpanded) = v.(ViewState.getOrigin)
  /\ vs.(viewDeltaUnexpanded) =
       mkXYZ (Qmin (Qmax limits.(ExtentLimits.min) (Qabs d.(x))) limits.(ExtentLimits.max))
             (Qmin (Qmax limits.(ExtentLimits.min) (Qabs d.(y))) limits.(ExtentLimits.max))
             (Qabs d.(z)).
Proof.
  cbv zeta.
  destruct (construct_fields vp planes) as (_ & _ & Hou & Hdu & _).
  rewrite Hou, Hdu. split; reflexivity.
Qed.

(** Extents that are not negative and lie within the limits are kept, up
    to the equality of rationals. *)
Lemma unexpanded_volume_well_formed (vp : Viewport)
    (planes : list Plane3dByOriginAndUnitNormal) :
  let v := vp.(view) in
  let vs := fst (construct vp planes) in
  let d := v.(ViewState.getExtents) in
  let limits := v.(ViewState.extentLimits) in
  limits.(ExtentLimits.min) <= d.(x) <= limits.(ExtentLimits.max) ->
  limits.(ExtentLimits.min) <= d.(y) <= limits.(ExtentLimits.max) ->
  0 <= d.(x) -> 0 <= d.(y) -> 0 <= d.(z) ->
  vs.(viewDeltaUnexpanded).(x) == d.(x)
  /\ vs.(viewDeltaUnexpanded).(y) == d.(y)
  /\ vs.(viewDeltaUnexpanded).(z) == d.(z).
Proof.
  cbv zeta. intros [Hx1 Hx2] [Hy1 Hy2] Hx Hy Hz.
  destruct (construct_fields vp planes) as (_ & _ & _ & -> & _).
  unfold clampedExtents, clampRange. cbn [x y z].
  rewrite !Qabs_pos by assumption.
  repeat split; try reflexivity.
  - rewrite Q.max_r by assumption. apply Q.min_l. assumption.
  - rewrite Q.max_r by assumption. apply Q.min_l. assumption.
Qed.
End Constructed.

(** C2 (counterexample).  For the 2D view [Sample.vp2d], authored with
    origin z = 0 and depth 1, the constructor stores origin z = -1 and depth
    2 and leaves [zClipAdjusted] false. *)
Theorem zClipAdjusted_claim_fails_2d :
  ~ zClipAdjusted_exactly_when_differs
      (fst (construct (host := Sample.host) Sample.vp2d [])).
Proof.
  unfold zClipAdjusted_exactly_when_differs, differs.
  intros [_ H].
  assert (E : false = true) by (apply H; left; vm_compute; reflexivity).
  discriminate E.
Qed.


(** C4 (counterexample).  For [SampleViews.vpNegative], whose extents are
    (-100, 50, 1), [viewDeltaUnexpanded] is (100, 50, 1). *)
Theorem unexpanded_claim_fails_negative :
  ~ unexpanded_as_authored SampleViews.viewNegative
      (fst (construct (host := Sample.host) SampleViews.vpNegative [])).
Proof.
  unfold unexpanded_as_authored. intros [_ H].
  apply (f_equal (fun d => Qle_bool 0 d.(x))) in H.
  vm_compute in H. discriminate H.
Qed.

Section Depth.
Context {host : Host}.

(** C6 (amended).  Constructing a ViewingSpace with no displayed planes for
    a camera-off 3D view whose viewed extents are null yields
    [viewDelta.z = 2], the floor of one unit in each direction, when the
    view does not allow 3D manipulations; when it allows them the depth is
    not adjusted and [viewDelta.z] is the absolute value of the z extent of
    the view. *)
Theorem null_extents_depth (vp : Viewport) :
  let v := vp.(view) in
  let vs := fst (construct vp []) in
  v.(ViewState.is3d) = true ->
  v.(ViewState.isCameraOn) = false ->
  isNull v.(ViewState.getViewedExtents) = true ->
  vs.(viewDelta).(z) =
    if v.(ViewState.allow3dManipulations)
    then Qabs v.(ViewState.getExtents).(z)
    else 2.
Proof.
  cbv zeta. intros H3 Hcam Hnull.
  destruct (construct_fields vp []) as (_ & -> & _).
  destruct (ViewState.allow3dManipulations (view vp)) eqn:Hm.
  - unfold av_delta, adjustVolume. rewrite H3, Hm, Hcam. cbn [negb].
    unfold adjustZPlanes, extendedViewedExtents, extendRangeForDisplayedPlanes.
    rewrite H3. cbn [negb extendRangeLoop]. rewrite Hnull, Hcam.
    reflexivity.
  - destruct (adjustVolume_planar (view vp) (ViewState.getRotation (view vp)) []
                (ViewState.getOrigin (view vp)) (clampedExtents (view vp)) H3 Hm)
      as (zMax & _ & -> & _ & Hz).
    rewrite (Hz Hnull). reflexivity.
Qed.

(** C7.  For every constructed ViewingSpace whose view has extent limits
    with [min <= max] and [0 <= max], the three components of [viewDelta]
    are not negative, and [viewDelta.x] and [viewDelta.y] lie between the
    limits. *)
Theorem viewDelta_nonneg_within_limits (vp : Viewport)
    (planes : list Plane3dByOriginAndUnitNormal) :
  let limits := vp.(view).(ViewState.extentLimits) in
  let vs := fst (construct vp planes) in
  limits.(ExtentLimits.min) <= limits.(ExtentLimits.max) ->
  0 <= limits.(ExtentLimits.max) ->
  0 <= vs.(viewDelta).(x) /\ 0 <= vs.(viewDelta).(y) /\ 0 <= vs.(viewDelta).(z)
  /\ limits.(ExtentLimits.min) <= vs.(viewDelta).(x) <= limits.(ExtentLimits.max)
  /\ limits.(ExtentLimits.min) <= vs.(viewDelta).(y) <= limits.(ExtentLimits.max).
Proof.
  cbv zeta. intros Hlim Hmax.
  destruct (construct_fields vp planes) as (_ & -> & _).
  destruct (adjustVolume_delta_xy (view vp) (ViewState.getRotation (view vp)) planes
              (ViewState.getOrigin (view vp)) (clampedExtents (view vp))) as [-> ->].
  pose proof (adjustVolume_delta_z_nonneg (view vp)
                (ViewState.getRotation (view vp)) planes
                (ViewState.getOrigin (view vp)) (clampedExtents (view vp))) as Hz.
  unfold clampedExtents in *. cbn [x y z] in *.
  repeat split.
  - apply clampRange_nonneg; [exact Hmax | apply Qabs_nonneg].
  - apply clampRange_nonneg; [exact Hmax | apply Qabs_nonneg].
  - apply Hz, Qabs_nonneg.
  - apply clampRange_ge_min, Hlim.
  - apply clampRange_le_max.
  - apply clampRange_ge_min, Hlim.
  - apply clampRange_le_max.
Qed.
End Depth.

(** C6 (counterexample).  [SampleViews.vp3d] is a camera-off 3D view that
    allows 3D manipulations, with null viewed extents and a depth of 1: the
    constructed [viewDelta.z] is 1. *)
Theorem depth_floor_fails_manipulable :
  ~ depth_floor (fst (construct (host := Sample.host) SampleViews.vp3d [])).
Proof.
  unfold depth_floor. vm_compute. intro H. apply H. reflexivity.
Qed.

(** C6 (witness).  The planar view [SampleViews.vpPlanar] gets a depth of 2. *)
Lemma null_extents_depth_witness :
  (fst (construct (host := Sample.host) SampleViews.vpPlanar [])).(viewDelta).(z) = 2.
Proof.
  apply (null_extents_depth (host := Sample.host) SampleViews.vpPlanar);
    vm_compute; reflexivity.
Defined.

(** C7 (witness).  The camera view [SampleViews.vpNear]. *)
Lemma viewDelta_nonneg_within_limits_witness :
  let vs := fst (construct (host := Sample.host) SampleViews.vpNear []) in
  0 <= vs.(viewDelta).(x) /\ 0 <= vs.(viewDelta).(y) /\ 0 <= vs.(viewDelta).(z)
  /\ (1 # 1000) <= vs.(viewDelta).(x) <= 25484000
  /\ (1 # 1000) <= vs.(viewDelta).(y) <= 25484000.
Proof.
  apply (viewDelta_nonneg_within_limits (host := Sample.host) SampleViews.vpNear []);
    vm_compute; discriminate.
Defined.

(** ** The eye too close to the back of the scene, in binary64 *)

Section TooClose.
Context {host : Binary64.Host}.

(** C5 (amended).  In [adjustZPlanes], in binary64, for a 3D view with the
    camera on whose extended viewed extents are not null: let [back] be the
    origin once it was set to the back of the viewed extents, and [eyeOrg]
    the vector from it to the eye in view coordinates.  If the test
    [eyeOrg.z < 1] succeeds, the function returns with [delta.z] set to 1
    (the x and y of [delta] untouched, no clamp to [eyeOrg.z]) and with
    [back] taken to view coordinates, its z lowered by the computed
    [2 - eyeOrg.z], and taken back to world coordinates. *)
Theorem adjustZPlanes_eye_too_close (v : Binary64.ViewState.t)
    (rot : Binary64.Matrix3d)
    (viewOrigin0 : Binary64.Point3d) (viewDelta0 : Binary64.Vector3d)
    (planes : list Binary64.Plane3dByOriginAndUnitNormal)
    (origin : Binary64.Point3d) (delta : Binary64.Vector3d) :
  let extents :=
    Binary64.extendedViewedExtents v rot viewOrigin0 viewDelta0 planes in
  let back := Binary64.backOrigin v rot viewOrigin0 viewDelta0 planes origin in
  let eyeOrg := Binary64.eyeFromBack v rot viewOrigin0 viewDelta0 planes origin in
  let backInView := Binary64.multiplyVectorInPlace rot back in
  let result :=
    Binary64.adjustZPlanes v rot viewOrigin0 viewDelta0 planes origin delta in
  v.(Binary64.ViewState.is3d) = true ->
  v.(Binary64.ViewState.isCameraOn) = true ->
  Binary64.isNull extents = false ->
  PrimFloat.ltb eyeOrg.(Binary64.z) 1 = true ->
  snd result = Binary64.setZ delta 1
  /\ fst result =
       Binary64.multiplyTransposeVectorInPlace rot
         (Binary64.setZ backInView
            (backInView.(Binary64.z) - (2 - eyeOrg.(Binary64.z)))%float).
Proof.
  cbv zeta. intros H3 Hcam Hnull Heye.
  unfold Binary64.eyeFromBack, Binary64.backOrigin in *. cbv zeta in Heye.
  unfold Binary64.adjustZPlanes. rewrite H3, Hcam, Hnull. cbn [negb]. cbv zeta.
  rewrite Heye. split; reflexivity.
Qed.

(** Without displayed planes the loop over the planes does not run, and
    [adjustZPlanes] computes the same with every host. *)
Lemma adjustZPlanes_without_planes (h : Binary64.Host) v rot o0 d0 origin delta :
  Binary64.adjustZPlanes (host := h) v rot o0 d0 [] origin delta
  = Binary64.adjustZPlanes (host := host) v rot o0 d0 [] origin delta.
Proof. reflexivity. Qed.
End TooClose.

(** C5 (witness).  [Binary64.viewHalf]: the eye is half a unit in front of
    the back of the scene; the origin goes from z = 0 to z = -3/2 and the
    depth becomes 1. *)
Lemma adjustZPlanes_eye_too_close_witness :
  let result :=
    Binary64.adjustZPlanes (host := Binary64.hostWithoutPlanes) Binary64.viewHalf
      Binary64.identity3d (Binary64.mkXYZ 0 0 0) (Binary64.mkXYZ 100 50 5) []
      (Binary64.mkXYZ 0 0 0) (Binary64.mkXYZ 100 50 5) in
  snd result = Binary64.mkXYZ 100 50 1
  /\ fst result = Binary64.mkXYZ 0 0 (-3 / 2).
Proof.
  cbv zeta.
  destruct (adjustZPlanes_eye_too_close (host := Binary64.hostWithoutPlanes)
              Binary64.viewHalf Binary64.identity3d (Binary64.mkXYZ 0 0 0)
              (Binary64.mkXYZ 100 50 5) [] (Binary64.mkXYZ 0 0 0)
              (Binary64.mkXYZ 100 50 5))
    as (Hd & Ho); try (vm_compute; reflexivity).
  split; [rewrite Hd | rewrite Ho]; vm_compute; reflexivity.
Defined.

(** [Binary64.viewTenths], traced: the back of the scene is at z = 0.1 and
    the eye at z = 0.7, so [eyeOrg.z] is 0.6 and passes the test; the origin
    is lowered by 1.4 to z = -1.2999999999999998, and the eye is then
    1.9999999999999998 in front of it. *)
Lemma viewTenths_traced :
  let o := Binary64.mkXYZ 0 0 0 in
  let d := Binary64.mkXYZ 100 50 1 in
  let eyeOrg :=
    Binary64.eyeFromBack (host := Binary64.hostWithoutPlanes) Binary64.viewTenths
      Binary64.identity3d o d [] o in
  let result :=
    Binary64.adjustZPlanes (host := Binary64.hostWithoutPlanes) Binary64.viewTenths
      Binary64.identity3d o d [] o d in
  eyeOrg.(Binary64.z) = 0x1.3333333333333p-1%float
  /\ PrimFloat.ltb eyeOrg.(Binary64.z) 1 = true
  /\ snd result = Binary64.mkXYZ 100 50 1
  /\ fst result = Binary64.mkXYZ 0 0 (-0x1.4ccccccccccccp+0)%float
  /\ (Binary64.multiplyVectorInPlace Binary64.identity3d
        (Binary64.minus Binary64.cameraTenths.(Binary64.Camera.eye) (fst result)))
       .(Binary64.z) = 0x1.fffffffffffffp+0%float.
Proof. vm_compute. repeat split; reflexivity. Qed.

(** [Binary64.viewBoundary], traced: the numbers written 0.3 and -0.7 are
    less than one apart, but their difference rounds to 1, the test
    [eyeOrg.z < 1] fails, the origin stays at the back of the scene and the
    depth is cut at the eye. *)
Lemma viewBoundary_traced :
  let o := Binary64.mkXYZ 0 0 0 in
  let d := Binary64.mkXYZ 100 50 1 in
  let eyeOrg :=
    Binary64.eyeFromBack (host := Binary64.hostWithoutPlanes)
      Binary64.viewBoundary Binary64.identity3d o d [] o in
  let result :=
    Binary64.adjustZPlanes (host := Binary64.hostWithoutPlanes)
      Binary64.viewBoundary Binary64.identity3d o d [] o d in
  eyeOrg.(Binary64.z) = 1%float
  /\ PrimFloat.ltb eyeOrg.(Binary64.z) 1 = false
  /\ fst result = Binary64.mkXYZ 0 0 (-0x1.6666666666666p-1)%float
  /\ snd result = Binary64.mkXYZ 100 50 1.
Proof. vm_compute. repeat split; reflexivity. Qed.

(** C5 (counterexample).  For [Binary64.viewTenths] the test [eyeOrg.z < 1]
    succeeds and [delta.z] becomes 1, but the eye is not 2 in front of the
    returned origin: the three subtractions round, and the distance is
    1.9999999999999998. *)
Theorem eye_two_in_front_fails_rounding :
  ~ Binary64.eye_two_in_front (host := Binary64.hostWithoutPlanes)
      Binary64.viewTenths Binary64.identity3d
      (Binary64.mkXYZ 0 0 0) (Binary64.mkXYZ 100 50 1) []
      (Binary64.mkXYZ 0 0 0) (Binary64.mkXYZ 100 50 1).
Proof.
  unfold Binary64.eye_two_in_front. cbv zeta. intro H.
  destruct H as [_ H]; try (vm_compute; reflexivity).
  apply (f_equal (fun f => PrimFloat.eqb f 2)) in H.
  vm_compute in H. discriminate H.
Qed.

(** ** 2D views *)

Section TwoD.
Context {host : Host}.

(** What [alignWithRootZ] leaves in the rotation: it is kept when its third
    row passes the world-up test, and otherwise its third row is the third
    column of what [createRigidFromMatrix3d] built. *)
Lemma alignWithRootZ_rowZ (rot : Matrix3d) (v : ViewState.t) :
  let rot' := fst (alignWithRootZ rot v) in
  (isAlmostEqual unitZ rot.(rowZ) = true /\ rot' = rot)
  \/ (isAlmostEqual unitZ rot.(rowZ) = false
      /\ rot'.(rowZ) =
           columnZ (createRigidFromMatrix3d (setColumnZ (transpose rot) unitZ)
                      AxisOrder_ZXY)).
Proof.
  cbv zeta. unfold alignWithRootZ.
  destruct (isAlmostEqual unitZ rot.(rowZ)); [left | right]; split; reflexivity.
Qed.

(** C8.  For every 2D view, after construction the third row of the
    rotation equals world-up under [isAlmostEqual], the comparison
    [alignWithRootZ] itself makes, [viewDelta.z] is exactly [2 * oneMeter]
    and [viewOrigin.z] is exactly [- oneMeter].  Two facts of geometry-core
    are assumed: [isAlmostEqual] accepts world-up itself, and
    [createRigidFromMatrix3d] with the axis order ZXY leaves the world-up
    third column it is given in place. *)
Theorem aligned_2d_band (vp : Viewport)
    (planes : list Plane3dByOriginAndUnitNormal) :
  let v := vp.(view) in
  let vs := fst (construct vp planes) in
  v.(ViewState.is3d) = false ->
  isAlmostEqual unitZ unitZ = true ->
  columnZ (createRigidFromMatrix3d
             (setColumnZ (transpose v.(ViewState.getRotation)) unitZ) AxisOrder_ZXY)
    = unitZ ->
  isAlmostEqual unitZ vs.(rotation).(rowZ) = true
  /\ vs.(viewDelta).(z) = 2 * oneMeter
  /\ vs.(viewOrigin).(z) = - oneMeter.
Proof.
  cbv zeta. intros H2 Hrefl Hrigid.
  destruct (construct_fields vp planes) as (-> & -> & _ & _ & -> & _).
  rewrite adjustVolume_rotation, H2. cbn [andb].
  destruct (adjustVolume_2d (view vp) (ViewState.getRotation (view vp)) planes
              (ViewState.getOrigin (view vp)) (clampedExtents (view vp)) H2)
    as [-> ->].
  split; [|split; reflexivity].
  destruct (alignWithRootZ_rowZ (ViewState.getRotation (view vp)) (view vp))
    as [[Ha ->] | [_ ->]].
  - exact Ha.
  - rewrite Hrigid. exact Hrefl.
Qed.

End TwoD.

(** ** The view corners and the frustum query *)

Section Queries.
Context {host : Host}.

(** C9.  For every constructed ViewingSpace, with [W] and [H] the width and
    height of the view rectangle: the view corners are low = (0, H, -32767)
    and high = (W, 0, 32767); [calcNpcToView] is the box map from the unit
    NPC cube to these corners that [Map4d.createBoxMap] builds, whenever it
    builds one; and [npcToView] is the affine interpolation between these
    corners, so that NPC (0,0,0) and (1,1,1) go to low and high, NPC y = 0
    goes to view y = H, NPC y = 1 to view y = 0, and NPC z = 0 and z = 1 go
    to view z = -32767 and 32767. *)
Theorem npcToView_is_box_map (vp : Viewport)
    (planes : list Plane3dByOriginAndUnitNormal) :
  let vs := fst (construct vp planes) in
  let W := width vp.(viewRect) in
  let H := height vp.(viewRect) in
  let lowCorner := mkXYZ 0 H (-32767) in
  let highCorner := mkXYZ W 0 32767 in
  getViewCorners vs = mkRange3d lowCorner highCorner
  /\ Npc_000 = mkXYZ 0 0 0 /\ Npc_111 = mkXYZ 1 1 1
  /\ (forall m, createBoxMap Npc_000 Npc_111 lowCorner highCorner = Some m ->
      calcNpcToView vs = Some m)
  /\ (forall p, npcToView vs p =
        mkXYZ (0 + p.(x) * (W - 0)) (H + p.(y) * (0 - H))
              (-32767 + p.(z) * (32767 - -32767)))
  /\ (forall a b c,
        (npcToView vs (mkXYZ a 0 c)).(y) == H
        /\ (npcToView vs (mkXYZ a 1 c)).(y) == 0
        /\ (npcToView vs (mkXYZ 0 b c)).(x) == 0
        /\ (npcToView vs (mkXYZ 1 b c)).(x) == W
        /\ (npcToView vs (mkXYZ a b 0)).(z) == -32767
        /\ (npcToView vs (mkXYZ a b 1)).(z) == 32767).
Proof.
  cbv zeta.
  destruct (construct_fields vp planes) as (_ & _ & _ & _ & _ & _ & Hw & Hh & _).
  assert (Hc : getViewCorners (fst (construct vp planes))
               = mkRange3d (mkXYZ 0 (height vp.(viewRect)) (-32767))
                           (mkXYZ (width vp.(viewRect)) 0 32767)).
  { unfold getViewCorners, viewRectInit. cbn [bottom right]. rewrite Hw, Hh.
    reflexivity. }
  split; [exact Hc|]. split; [reflexivity|]. split; [reflexivity|].
  split; [|split].
  - intros m Hm. unfold calcNpcToView. rewrite Hc. cbn [low high].
    rewrite Hm. reflexivity.
  - intro p. unfold npcToView. rewrite Hc. reflexivity.
  - intros a b c. unfold npcToView. rewrite Hc.
    unfold fractionToPoint, interpolate. cbn [x y z low high].
    generalize (width vp.(viewRect)) (height vp.(viewRect)). intros W H.
    repeat split; ring.
Qed.

(** [calcNpcToView] reads the client width and height only. *)
Lemma calcNpcToView_client_size (a b : ViewingSpace) :
  a.(clientWidth) = b.(clientWidth) -> a.(clientHeight) = b.(clientHeight) ->
  calcNpcToView a = calcNpcToView b.
Proof.
  intros Hw Hh. unfold calcNpcToView, getViewCorners. rewrite Hw, Hh. reflexivity.
Qed.

(** The world-to-view map is left at the identity, or it is the
    composition of what [calcNpcToView] returned with the world-to-NPC
    map. *)
Lemma worldToViewMap_composition (vp : Viewport)
    (planes : list Plane3dByOriginAndUnitNormal) :
  let vs := fst (construct vp planes) in
  vs.(worldToViewMap) = createIdentity
  \/ exists m, calcNpcToView vs = Some m
               /\ vs.(worldToViewMap) = multiplyMapMap m vs.(worldToNpcMap).
Proof.
  cbv zeta. unfold construct, runConstructor. cbv zeta.
  destruct (adjustVolume _ _ _ _ _) as [[[[rot' v'] o'] d'] zc].
  destruct (WorldToNpc.map _) as [m|]; [|left; reflexivity].
  destruct (calcNpcToView _) as [n|] eqn:E; [|left; reflexivity].
  right. exists n. cbn [fst]. split; [|reflexivity].
  rewrite <- E. apply calcNpcToView_client_size; reflexivity.
Qed.

(** C10.  When [getFrustum] is called with [adjustedBox = false] on a
    ViewingSpace whose [zClipAdjusted] is true and the world-to-NPC map of
    the unexpanded volume does not exist, it returns the corners of the
    unit NPC cube, whatever the coordinate system asked for. *)
Theorem getFrustum_unadjusted_invalid (vs : ViewingSpace) (v : ViewState.t)
    (sys : CoordSystem) (box : option Frustum) :
  vs.(zClipAdjusted) = true ->
  (computeWorldToNpc v vs.(rotation) vs.(viewOriginUnexpanded)
     vs.(viewDeltaUnexpanded) true).(WorldToNpc.map) = None ->
  getFrustum vs v sys false box = NpcCorners.
Proof.
  intros Hz Hmap. unfold getFrustum. rewrite Hz, Hmap. cbn [negb andb].
  destruct box; reflexivity.
Qed.
End Queries.

(** The two facts assumed of geometry-core hold of the sample host, for
    every rotation: the tolerance compare accepts world-up itself, and the
    rigid matrix built in the order ZXY keeps a world-up third column. *)
Lemma sample_createRigid_keeps_unitZ (rot : Matrix3d) :
  Sample.isAlmostEqual unitZ unitZ = true
  /\ columnZ (Sample.createRigidFromMatrix3d (setColumnZ (transpose rot) unitZ)
               AxisOrder_ZXY) = unitZ.
Proof.
  split; [vm_compute; reflexivity|].
  destruct rot as [[xx xy xz] [yx yy yz] [zx zy zz]].
  unfold Sample.createRigidFromMatrix3d, Sample.normalizeColumns.
  match goal with
  | |- context [if ?c then _ else _] => destruct c
  end; reflexivity.
Qed.

(** C8 (witness).  The 2D view [SampleViews.vp2dFront] looks along the
    world y axis; its rotation is rebuilt. *)
Lemma aligned_2d_band_witness :
  let vs := fst (construct (host := Sample.host) SampleViews.vp2dFront []) in
  Sample.isAlmostEqual unitZ vs.(rotation).(rowZ) = true
  /\ vs.(viewDelta).(z) = 2 * oneMeter
  /\ vs.(viewOrigin).(z) = - oneMeter.
Proof.
  apply (aligned_2d_band (host := Sample.host) SampleViews.vp2dFront []);
    vm_compute; reflexivity.
Defined.

(** C10 (witness).  [SampleScenes.vpFlatCameraScene]: the camera is on, the
    authored volume is flat, the scene is ten units deep; the z planes are
    adjusted and the unexpanded volume has no map. *)
Lemma getFrustum_unadjusted_invalid_witness :
  getFrustum (host := Sample.host)
    (fst (construct (host := Sample.host) SampleScenes.vpFlatCameraScene []))
    (snd (construct (host := Sample.host) SampleScenes.vpFlatCameraScene []))
    CoordSystem_World false None
  = NpcCorners.
Proof.
  apply (getFrustum_unadjusted_invalid (host := Sample.host));
    vm_compute; reflexivity.
Defined.

(** ** The sample views, run *)

(** The 2D view with extents (100, 50) in a view rectangle of 800 x 600
    pixels and the identity rotation: a depth band of one meter in each
    direction, the rotation kept, a frustum fraction of 1, and the origin
    of the view at the pixel (0, 600). *)
Lemma sample_2d_view :
  let vs := fst (construct (host := Sample.host) Sample.vp2d []) in
  vs.(viewDelta) = mkXYZ 100 50 (2 * oneMeter)
  /\ vs.(viewOrigin) = mkXYZ 0 0 (- oneMeter)
  /\ vs.(rotation) = identity3d
  /\ vs.(frustFraction) = 1
  /\ vs.(zClipAdjusted) = false
  /\ worldToView (host := Sample.host) vs (mkXYZ 0 0 0) = mkXYZ 0 600 0.
Proof. vm_compute. repeat split; reflexivity. Qed.

(** On the ViewingSpace of [SampleScenes.vpFlatCameraScene], the adjusted
    box in world coordinates is not the NPC cube: the corners [getFrustum]
    returns for the unadjusted box were not converted. *)
Lemma sample_adjusted_frustum :
  let vs := fst (construct (host := Sample.host) SampleScenes.vpFlatCameraScene []) in
  let v := snd (construct (host := Sample.host) SampleScenes.vpFlatCameraScene []) in
  (nth 0 (getFrustum (host := Sample.host) vs v CoordSystem_World true None)
     createZero).(z) == -4
  /\ (nth 7 (getFrustum (host := Sample.host) vs v CoordSystem_World true None)
        createZero).(z) == 6
  /\ nth 7 (getFrustum (host := Sample.host) vs v CoordSystem_World false None)
       createZero = mkXYZ 1 1 1.
Proof. vm_compute. repeat split; reflexivity. Qed.

(** ** Ranges under extension *)

Lemma extend1_bounds (lo hi v : Q) :
  fst (extend1 lo hi v) <= lo /\ hi <= snd (extend1 lo hi v)
  /\ fst (extend1 lo hi v) <= v <= snd (extend1 lo hi v).
Proof.
  unfold extend1, gtb. cbn [fst snd].
  destruct (ltb v lo) eqn:E1; destruct (ltb hi v) eqn:E2;
    try apply ltb_true_iff in E1; try apply ltb_true_iff in E2;
    try apply ltb_false_iff in E1; try apply ltb_false_iff in E2;
    repeat split; lra.
Qed.

Lemma rangeWithin_refl (r : Range3d) : rangeWithin r r.
Proof. unfold rangeWithin. repeat split; apply Qle_refl. Qed.

Lemma rangeWithin_trans (a b c : Range3d) :
  rangeWithin a b -> rangeWithin b c -> rangeWithin a c.
Proof.
  unfold rangeWithin.
  intros (H1 & H2 & H3 & H4 & H5 & H6) (G1 & G2 & G3 & G4 & G5 & G6).
  repeat split; eapply Qle_trans; eassumption.
Qed.

Lemma extend_grows (r : Range3d) (p : Point3d) : rangeWithin r (extend r p).
Proof.
  unfold rangeWithin, extend.
  destruct (extend1_bounds r.(low).(x) r.(high).(x) p.(x)) as (X1 & X2 & _).
  destruct (extend1_bounds r.(low).(y) r.(high).(y) p.(y)) as (Y1 & Y2 & _).
  destruct (extend1_bounds r.(low).(z) r.(high).(z) p.(z)) as (Z1 & Z2 & _).
  destruct (extend1 r.(low).(x) r.(high).(x) p.(x)) as [lx hx].
  destruct (extend1 r.(low).(y) r.(high).(y) p.(y)) as [ly hy].
  destruct (extend1 r.(low).(z) r.(high).(z) p.(z)) as [lz hz].
  cbn [fst snd low high x y z] in *. repeat split; assumption.
Qed.

Lemma extend_contains (r : Range3d) (p : Point3d) : containsPoint (extend r p) p.
Proof.
  unfold containsPoint, extend.
  destruct (extend1_bounds r.(low).(x) r.(high).(x) p.(x)) as (_ & _ & X1 & X2).
  destruct (extend1_bounds r.(low).(y) r.(high).(y) p.(y)) as (_ & _ & Y1 & Y2).
  destruct (extend1_bounds r.(low).(z) r.(high).(z) p.(z)) as (_ & _ & Z1 & Z2).
  destruct (extend1 r.(low).(x) r.(high).(x) p.(x)) as [lx hx].
  destruct (extend1 r.(low).(y) r.(high).(y) p.(y)) as [ly hy].
  destruct (extend1 r.(low).(z) r.(high).(z) p.(z)) as [lz hz].
  cbn [fst snd low high x y z] in *. repeat split; assumption.
Qed.

Lemma containsPoint_grows (a b : Range3d) (p : Point3d) :
  rangeWithin a b -> containsPoint a p -> containsPoint b p.
Proof.
  unfold rangeWithin, containsPoint.
  intros (H1 & H2 & H3 & H4 & H5 & H6) ((X1 & X2) & (Y1 & Y2) & (Z1 & Z2)).
  repeat split; eapply Qle_trans; eassumption.
Qed.

Lemma extendByParallelPlane_grows (r : Range3d) (p : Plane3dByOriginAndUnitNormal) :
  rangeWithin r (extendByParallelPlane r p).
Proof.
  unfold extendByParallelPlane.
  eapply rangeWithin_trans; apply extend_grows.
Qed.

Section PlaneExtension.
Context {host : Host}.

Lemma extendByFrustumRay_grows v plane points acc i :
  rangeWithin (fst acc) (fst (extendByFrustumRay v plane points acc i)).
Proof.
  unfold extendByFrustumRay. destruct acc as [extents includeHorizon].
  destruct (intersectionWithPlane _ _) as [[d q]|]; cbn [fst].
  - destruct (negb _ || gtb d 0); cbn [fst];
      [apply extend_grows | apply rangeWithin_refl].
  - apply rangeWithin_refl.
Qed.

Lemma fold_extendByFrustumRay_grows v plane points (l : list nat) acc :
  rangeWithin (fst acc)
    (fst (fold_left (extendByFrustumRay v plane points) l acc)).
Proof.
  revert acc. induction l as [|i l IH]; intro acc; cbn [fold_left].
  - apply rangeWithin_refl.
  - eapply rangeWithin_trans; [apply extendByFrustumRay_grows | apply IH].
Qed.

Lemma extendRangeLoop_grows v rot viewOrigin0 viewDelta0 planes extents :
  rangeWithin extents (extendRangeLoop v rot viewOrigin0 viewDelta0 planes extents).
Proof.
  revert extents. induction planes as [|p rest IH]; intro extents;
    cbn [extendRangeLoop].
  - apply rangeWithin_refl.
  - cbv zeta. destruct (gtb _ _).
    + destruct (WorldToNpc.map _) as [m|]; [|apply rangeWithin_refl].
      pose proof (fold_extendByFrustumRay_grows v p
                    (map (multiplyPoint3dQuietNormalize m.(transform1)) NpcCorners)
                    [0; 1; 2; 3]%nat (extents, false)) as Hf.
      destruct (fold_left _ _ _) as [e1 includeHorizon]. cbn [fst] in Hf.
      eapply rangeWithin_trans; [exact Hf|].
      eapply rangeWithin_trans; [|apply IH].
      eapply rangeWithin_trans with
        (b := if includeHorizon then _ else e1).
      * destruct includeHorizon; [apply extend_grows | apply rangeWithin_refl].
      * destruct (ViewState.isCameraOn v);
          [apply extend_grows | apply rangeWithin_refl].
    + eapply rangeWithin_trans; [|apply IH].
      eapply rangeWithin_trans; apply extend_grows.
Qed.
End PlaneExtension.

(** ** Displayed planes *)

Section DisplayedPlanes.
Context {host : Host}.

(** X1.  [extendRangeForDisplayedPlanes] only ever grows the range it is
    given: whatever the view and the displayed planes, the range it leaves
    holds the range it received. *)
Theorem extendRangeForDisplayedPlanes_only_grows (v : ViewState.t)
    (rot : Matrix3d) (viewOrigin0 : Point3d) (viewDelta0 : Vector3d)
    (planes : list Plane3dByOriginAndUnitNormal) (extents : Range3d) :
  rangeWithin extents
    (extendRangeForDisplayedPlanes v rot viewOrigin0 viewDelta0 planes extents).
Proof.
  unfold extendRangeForDisplayedPlanes.
  destruct (negb v.(ViewState.is3d));
    [apply rangeWithin_refl | apply extendRangeLoop_grows].
Qed.

(** X2.  For a 3D view whose first displayed plane is parallel to the view
    (the cross product of the view z axis and the plane normal is no longer
    than 1e-8), the extended range holds the two points one unit off the
    plane origin along its normal, whatever the later planes do. *)
Theorem extendRange_parallel_plane_thickness (v : ViewState.t)
    (rot : Matrix3d) (viewOrigin0 : Point3d) (viewDelta0 : Vector3d)
    (p : Plane3dByOriginAndUnitNormal)
    (rest : list Plane3dByOriginAndUnitNormal) (extents : Range3d) :
  let result :=
    extendRangeForDisplayedPlanes v rot viewOrigin0 viewDelta0 (p :: rest) extents in
  v.(ViewState.is3d) = true ->
  parallelToView rot p = true ->
  containsPoint result (plusScaled p.(getOriginRef) p.(getNormalRef) (-1))
  /\ containsPoint result (plusScaled p.(getOriginRef) p.(getNormalRef) 1).
Proof.
  cbv zeta. intros H3 Hpar.
  unfold extendRangeForDisplayedPlanes. rewrite H3. cbn [negb extendRangeLoop].
  cbv zeta. unfold parallelToView in Hpar. apply negb_true_iff in Hpar.
  rewrite Hpar.
  split.
  - eapply containsPoint_grows; [apply extendRangeLoop_grows|].
    eapply containsPoint_grows; [apply extend_grows | apply extend_contains].
  - eapply containsPoint_grows; [apply extendRangeLoop_grows|].
    apply extend_contains.
Qed.

(** X3.  For a 3D view with the camera on whose first displayed plane is
    not parallel to the view and for which the provisional world-to-NPC map
    exists, the extended range holds the point ten units from the eye along
    the view z axis (the near plane cannot collapse onto the eye). *)
Theorem extendRange_minimum_eye_distance (v : ViewState.t)
    (rot : Matrix3d) (viewOrigin0 : Point3d) (viewDelta0 : Vector3d)
    (p : Plane3dByOriginAndUnitNormal)
    (rest : list Plane3dByOriginAndUnitNormal) (extents : Range3d) :
  let result :=
    extendRangeForDisplayedPlanes v rot viewOrigin0 viewDelta0 (p :: rest) extents in
  v.(ViewState.is3d) = true ->
  v.(ViewState.isCameraOn) = true ->
  parallelToView rot p = false ->
  (computeWorldToNpc v rot viewOrigin0 viewDelta0 false).(WorldToNpc.map) <> None ->
  containsPoint result (plusScaled (getEyePoint v) rot.(rowZ) (- (10))).
Proof.
  cbv zeta. intros H3 Hcam Hpar Hmap.
  unfold extendRangeForDisplayedPlanes. rewrite H3. cbn [negb extendRangeLoop].
  cbv zeta. unfold parallelToView in Hpar. apply negb_false_iff in Hpar.
  rewrite Hpar.
  destruct (WorldToNpc.map _) as [m|]; [|congruence].
  destruct (fold_left _ _ _) as [e1 includeHorizon].
  rewrite Hcam.
  eapply containsPoint_grows; [apply extendRangeLoop_grows|].
  apply extend_contains.
Qed.

(** X4.  When the provisional world-to-NPC map does not exist, the loop of
    [extendRangeForDisplayedPlanes] stops at the first displayed plane that
    is not parallel to the view: the range is extended by the parallel
    planes that come before it, and every plane after it is ignored, even
    one that is parallel. *)
Theorem extendRange_missing_map_stops (v : ViewState.t)
    (rot : Matrix3d) (viewOrigin0 : Point3d) (viewDelta0 : Vector3d)
    (planes : list Plane3dByOriginAndUnitNormal) (extents : Range3d) :
  v.(ViewState.is3d) = true ->
  (computeWorldToNpc v rot viewOrigin0 viewDelta0 false).(WorldToNpc.map) = None ->
  extendRangeForDisplayedPlanes v rot viewOrigin0 viewDelta0 planes extents
  = fold_left extendByParallelPlane (leadingParallel rot planes) extents.
Proof.
  intros H3 Hmap. unfold extendRangeForDisplayedPlanes. rewrite H3. cbn [negb].
  revert extents. induction planes as [|p rest IH]; intro extents;
    cbn [extendRangeLoop leadingParallel].
  - reflexivity.
  - cbv zeta. unfold parallelToView.
    destruct (gtb _ _); cbn [negb].
    + rewrite Hmap. reflexivity.
    + cbn [fold_left]. rewrite IH. reflexivity.
Qed.
End DisplayedPlanes.

(** X2 (witness).  A ground plane under the top view [SampleViews.view3d]. *)
Lemma extendRange_parallel_plane_thickness_witness :
  let p := mkPlane (mkXYZ 0 0 0) (mkXYZ 0 0 1) in
  let result :=
    extendRangeForDisplayedPlanes (host := Sample.host) SampleViews.view3d
      identity3d (mkXYZ 0 0 0) (mkXYZ 100 50 1) [p] Sample.nullRange in
  containsPoint result (plusScaled p.(getOriginRef) p.(getNormalRef) (-1))
  /\ containsPoint result (plusScaled p.(getOriginRef) p.(getNormalRef) 1).
Proof.
  apply (extendRange_parallel_plane_thickness (host := Sample.host)
           SampleViews.view3d identity3d (mkXYZ 0 0 0) (mkXYZ 100 50 1)
           (mkPlane (mkXYZ 0 0 0) (mkXYZ 0 0 1)) []);
    vm_compute; reflexivity.
Defined.

(** X3 (witness).  A vertical plane in the camera view
    [SampleViews.viewNear]. *)
Lemma extendRange_minimum_eye_distance_witness :
  containsPoint
    (extendRangeForDisplayedPlanes (host := Sample.host) SampleViews.viewNear
       identity3d (mkXYZ 0 0 0) (mkXYZ 100 50 1)
       [mkPlane (mkXYZ 0 0 0) (mkXYZ 1 0 0)]
       SampleViews.viewNear.(ViewState.getViewedExtents))
    (plusScaled (Sample.getEyePoint SampleViews.viewNear) identity3d.(rowZ) (- (10))).
Proof.
  apply (extendRange_minimum_eye_distance (host := Sample.host)
           SampleViews.viewNear identity3d (mkXYZ 0 0 0) (mkXYZ 100 50 1)
           (mkPlane (mkXYZ 0 0 0) (mkXYZ 1 0 0)) []);
    try (vm_compute; reflexivity).
  vm_compute. discriminate.
Defined.

(** X4 (witness).  The flat volume of [SampleScenes.viewFlatCamera], seen
    by a camera, with a ground plane, a vertical plane and a second
    horizontal plane: only the first one extends the range. *)
Lemma extendRange_missing_map_stops_witness :
  extendRangeForDisplayedPlanes (host := Sample.host) SampleScenes.viewFlatCamera
    identity3d (mkXYZ 0 0 0) (mkXYZ 100 50 0)
    [mkPlane (mkXYZ 0 0 0) (mkXYZ 0 0 1); mkPlane (mkXYZ 0 0 0) (mkXYZ 1 0 0);
     mkPlane (mkXYZ 0 0 5) (mkXYZ 0 0 1)] Sample.nullRange
  = mkRange3d (mkXYZ 0 0 (-1)) (mkXYZ 0 0 1).
Proof.
  rewrite (extendRange_missing_map_stops (host := Sample.host));
    vm_compute; reflexivity.
Defined.

(** ** The z planes *)

Section ZPlanesMore.
Context {host : Host}.


(** X7.  In [adjustZPlanes] for a 3D view with the camera off and viewed
    extents that are not null, the depth becomes the z span of the viewed
    extents in view-aligned coordinates, which is not negative, and the
    origin is the origin it received with its view-aligned z set to the low
    z of those extents, taken back to world coordinates. *)
Theorem adjustZPlanes_camera_off_encloses (v : ViewState.t) (rot : Matrix3d)
    (viewOrigin0 : Point3d) (viewDelta0 : Vector3d)
    (planes : list Plane3dByOriginAndUnitNormal)
    (origin : Point3d) (delta : Vector3d) :
  let extents := extendedViewedExtents v rot viewOrigin0 viewDelta0 planes in
  let aligned := viewAlignedExtents rot extents in
  let result := adjustZPlanes v rot viewOrigin0 viewDelta0 planes origin delta in
  v.(ViewState.is3d) = true ->
  v.(ViewState.isCameraOn) = false ->
  isNull extents = false ->
  snd result = setZ delta (aligned.(high).(z) - aligned.(low).(z))
  /\ 0 <= (snd result).(z)
  /\ fst result =
       multiplyTransposeVectorInPlace rot
         (setZ (multiplyVectorInPlace rot origin) aligned.(low).(z)).
Proof.
  cbv zeta. intros H3 Hcam Hnull.
  unfold adjustZPlanes. rewrite H3, Hcam, Hnull. cbn [negb]. cbv zeta.
  generalize (viewAlignedExtents_z_ordered rot
                (extendedViewedExtents v rot viewOrigin0 viewDelta0 planes)).
  generalize (viewAlignedExtents rot
                (extendedViewedExtents v rot viewOrigin0 viewDelta0 planes)).
  intros ext Hord. cbn [fst snd z setZ].
  split; [reflexivity|]. split; [lra | reflexivity].
Qed.
End ZPlanesMore.


(** X7 (witness).  [SampleViews.viewFlatScene]: the camera is off and the
    scene is ten units deep. *)
Lemma adjustZPlanes_camera_off_encloses_witness :
  let result :=
    adjustZPlanes (host := Sample.host) SampleViews.viewFlatScene identity3d
      (mkXYZ 0 0 0) (mkXYZ 100 50 0) [] (mkXYZ 0 0 0) (mkXYZ 100 50 0) in
  (snd result).(z) == 10 /\ (fst result).(z) == 0.
Proof.
  cbv zeta.
  destruct (adjustZPlanes_camera_off_encloses (host := Sample.host)
              SampleViews.viewFlatScene identity3d (mkXYZ 0 0 0) (mkXYZ 100 50 0) []
              (mkXYZ 0 0 0) (mkXYZ 100 50 0)) as (Hd & _ & Ho);
    try (vm_compute; reflexivity).
  split.
  - rewrite Hd. vm_compute. reflexivity.
  - rewrite Ho. vm_compute. reflexivity.
Defined.

(** ** The camera *)

Section CameraRepair.
Context {host : Host}.

(** X8.  When [validateCamera] finds the focus distance of a 3D view not
    valid, the focus distance it commits is at least half the z extent of
    the view and at least the distance computed from the larger of the x
    and y extents and the lens angle (it is one of the two); the lens is the
    validated lens; and the eye point it commits is the point over the
    middle of the x and y extents, the focus distance beyond the middle of
    the z extent, taken from view to world orientation and added to the
    origin of the view. *)
Theorem validateCamera_repairs_focus (rot : Matrix3d) (v : ViewState.t) :
  let lensed := validateLens v.(ViewState.camera) in
  let d := v.(ViewState.getExtents) in
  let maxDelta := if gtb d.(x) d.(y) then d.(x) else d.(y) in
  let fromLens := maxDelta / (2 * Math_tan (lensed.(Camera.lens) / 2)) in
  let c := (validateCamera rot v).(ViewState.camera) in
  v.(ViewState.is3d) = true ->
  isFocusValid lensed = false ->
  c.(Camera.lens) = lensed.(Camera.lens)
  /\ d.(z) / 2 <= c.(Camera.focusDist) /\ fromLens <= c.(Camera.focusDist)
  /\ (c.(Camera.focusDist) = d.(z) / 2 \/ c.(Camera.focusDist) = fromLens)
  /\ c.(Camera.eye) =
       plus (multiplyTransposeVectorInPlace rot
               (mkXYZ (d.(x) / 2) (d.(y) / 2) (d.(z) / 2 + c.(Camera.focusDist))))
            v.(ViewState.getOrigin).
Proof.
  cbv zeta. intros H3 Hfocus.
  unfold validateCamera. rewrite H3. cbn [negb]. cbv zeta.
  rewrite Hfocus. unfold ViewState.setCamera, fromViewOrientation.
  cbn [ViewState.camera ViewState.getExtents ViewState.getOrigin
       Camera.lens Camera.focusDist Camera.eye].
  generalize (validateLens v.(ViewState.camera)). intro lensed.
  generalize ((if gtb v.(ViewState.getExtents).(x) v.(ViewState.getExtents).(y)
               then v.(ViewState.getExtents).(x)
               else v.(ViewState.getExtents).(y))
              / (2 * Math_tan (lensed.(Camera.lens) / 2))).
  intro fromLens.
  split; [reflexivity|].
  destruct (ltb fromLens (v.(ViewState.getExtents).(z) / 2)) eqn:Hlt.
  - apply ltb_true_iff in Hlt.
    split; [apply Qle_refl|]. split; [apply Qlt_le_weak, Hlt|].
    split; [left; reflexivity | reflexivity].
  - apply ltb_false_iff in Hlt.
    split; [exact Hlt|]. split; [apply Qle_refl|].
    split; [right; reflexivity | reflexivity].
Qed.
End CameraRepair.

(** X8 (witness).  [SampleViews.viewCamera], whose focus distance is 0. *)
Lemma validateCamera_repairs_focus_witness :
  let c :=
    (validateCamera (host := Sample.host) identity3d SampleViews.viewCamera)
      .(ViewState.camera) in
  (1 # 2) <= c.(Camera.focusDist) /\ c.(Camera.eye).(x) == 50
  /\ c.(Camera.eye).(y) == 25.
Proof.
  cbv zeta.
  destruct (validateCamera_repairs_focus (host := Sample.host) identity3d
              SampleViews.viewCamera) as (_ & Hf & _ & _ & _);
    try (vm_compute; reflexivity).
  split; [|vm_compute; split; reflexivity].
  eapply Qle_trans; [|exact Hf]. vm_compute. discriminate.
Defined.

(** ** The constructed volume *)

Section Volume.
Context {host : Host}.

(** X10.  The rotation of every constructed ViewingSpace is the rotation of
    the view as the constructor leaves it: when the alignment rewrites the
    one it rewrites the other. *)
Theorem construct_rotation_in_sync (vp : Viewport)
    (planes : list Plane3dByOriginAndUnitNormal) :
  (fst (construct vp planes)).(rotation)
  = (snd (construct vp planes)).(ViewState.getRotation).
Proof.
  destruct (construct_fields vp planes)
    as (_ & _ & _ & _ & -> & _ & _ & _ & ->).
  rewrite adjustVolume_rotation, adjustVolume_view.
  destruct (ViewState.is3d (view vp) && ViewState.allow3dManipulations (view vp)).
  - destruct (ViewState.isCameraOn (view vp)); [|reflexivity].
    destruct (validateCamera_frame (ViewState.getRotation (view vp)) (view vp))
      as [_ ->]. reflexivity.
  - unfold alignWithRootZ.
    destruct (isAlmostEqual unitZ _); reflexivity.
Qed.

(** X11.  The expansion of the volume is in depth only: [viewDelta] has the
    x and y of [viewDeltaUnexpanded], for every view; and for a view that
    is 2D or does not allow 3D manipulations [viewOrigin] has the x and y of
    [viewOriginUnexpanded] and the depth band is centred on z = 0
    ([viewOrigin.z] is minus half of [viewDelta.z]). *)
Theorem construct_expands_depth_only (vp : Viewport)
    (planes : list Plane3dByOriginAndUnitNormal) :
  let v := vp.(view) in
  let vs := fst (construct vp planes) in
  vs.(viewDelta).(x) = vs.(viewDeltaUnexpanded).(x)
  /\ vs.(viewDelta).(y) = vs.(viewDeltaUnexpanded).(y)
  /\ (v.(ViewState.is3d) && v.(ViewState.allow3dManipulations) = false ->
      vs.(viewOrigin).(x) = vs.(viewOriginUnexpanded).(x)
      /\ vs.(viewOrigin).(y) = vs.(viewOriginUnexpanded).(y)
      /\ vs.(viewOrigin).(z) == - (vs.(viewDelta).(z) / 2)).
Proof.
  cbv zeta.
  destruct (construct_fields vp planes) as (-> & -> & -> & -> & _).
  destruct (adjustVolume_delta_xy (view vp) (ViewState.getRotation (view vp)) planes
              (ViewState.getOrigin (view vp)) (clampedExtents (view vp))) as [-> ->].
  split; [reflexivity|]. split; [reflexivity|].
  intro Hk.
  destruct (ViewState.is3d (view vp)) eqn:H3.
  - cbn [andb] in Hk.
    destruct (adjustVolume_planar (view vp) (ViewState.getRotation (view vp)) planes
                (ViewState.getOrigin (view vp)) (clampedExtents (view vp)) H3 Hk)
      as (zMax & _ & -> & -> & _).
    cbn [x y z setZ]. split; [reflexivity|]. split; [reflexivity|]. field.
  - destruct (adjustVolume_2d (view vp) (ViewState.getRotation (view vp)) planes
                (ViewState.getOrigin (view vp)) (clampedExtents (view vp)) H3)
      as [-> ->].
    cbn [x y z setZ]. split; [reflexivity|]. split; [reflexivity|].
    unfold frustumDepth2d, oneMeter. reflexivity.
Qed.
End Volume.

Section PlanarBand.
Context {host : Host}.

(** X12.  For a 3D view that does not allow 3D manipulations and whose
    viewed extents are not null, the constructed depth band holds the z
    range of the viewed extents and is at least one unit deep on each side
    of z = 0: [viewOrigin.z <= low.z], [high.z <= viewOrigin.z +
    viewDelta.z], [viewOrigin.z <= -1] and [2 <= viewDelta.z]. *)
Theorem construct_planar_band_encloses (vp : Viewport)
    (planes : list Plane3dByOriginAndUnitNormal) :
  let v := vp.(view) in
  let vs := fst (construct vp planes) in
  let extents := v.(ViewState.getViewedExtents) in
  v.(ViewState.is3d) = true ->
  v.(ViewState.allow3dManipulations) = false ->
  isNull extents = false ->
  vs.(viewOrigin).(z) <= extents.(low).(z)
  /\ extents.(high).(z) <= vs.(viewOrigin).(z) + vs.(viewDelta).(z)
  /\ vs.(viewOrigin).(z) <= - (1) /\ 2 <= vs.(viewDelta).(z).
Proof.
  cbv zeta. intros H3 Hm Hnull.
  destruct (construct_fields vp planes) as (-> & -> & _).
  unfold av_origin, av_delta, adjustVolume. rewrite H3, Hm. cbn [negb].
  pose proof (alignWithRootZ_frame (ViewState.getRotation (view vp)) (view vp))
    as [Hf _].
  destruct (alignWithRootZ _ _) as [rot' v']. cbn [fst snd] in *.
  destruct Hf as (_ & _ & _ & _ & _ & _ & _ & He). rewrite He, Hnull.
  cbn [z setZ].
  generalize (ViewState.getViewedExtents (view vp)). intro ext.
  pose proof (Qle_Qabs ext.(low).(z)) as A1.
  pose proof (Qle_Qabs (- ext.(low).(z))) as A2. rewrite Qabs_opp in A2.
  pose proof (Qle_Qabs ext.(high).(z)) as A3.
  pose proof (Qmax_ge_l (Qabs ext.(low).(z)) (Qabs ext.(high).(z))) as M1.
  pose proof (Qmax_ge_r (Qabs ext.(low).(z)) (Qabs ext.(high).(z))) as M2.
  pose proof (Qmax_ge_l (Qmax (Qabs ext.(low).(z)) (Qabs ext.(high).(z))) 1) as M3.
  pose proof (Qmax_ge_r (Qmax (Qabs ext.(low).(z)) (Qabs ext.(high).(z))) 1) as M4.
  revert A1 A2 A3 M1 M2 M3 M4.
  generalize (Qmax (Qmax (Qabs ext.(low).(z)) (Qabs ext.(high).(z))) 1).
  generalize (Qmax (Qabs ext.(low).(z)) (Qabs ext.(high).(z))).
  generalize (Qabs ext.(low).(z)) (Qabs ext.(high).(z)).
  generalize ext.(low).(z) ext.(high).(z).
  intros lz hz al ah m zMax A1 A2 A3 M1 M2 M3 M4.
  repeat split; lra.
Qed.

(** X14.  When [createFromViewportAndPlane] returns an object, it is the
    ViewingSpace constructed for the displayed planes of the viewport
    followed by the given plane, its [frustFraction] is not 0, and the view
    of the viewport is left as that construction leaves it. *)
Theorem createFromViewportAndPlane_some (vp : Viewport)
    (plane : Plane3dByOriginAndUnitNormal) (vs : ViewingSpace) :
  fst (createFromViewportAndPlane vp plane) = Some vs ->
  vs = fst (construct vp (vp.(getDisplayedPlanes) ++ [plane]))
  /\ ~ vs.(frustFraction) == 0
  /\ vs.(displayedPlanes) = vp.(getDisplayedPlanes) ++ [plane]
  /\ snd (createFromViewportAndPlane vp plane)
     = snd (construct vp (vp.(getDisplayedPlanes) ++ [plane])).
Proof.
  unfold createFromViewportAndPlane, construct. cbv zeta.
  assert (Hp : (fst (fst (runConstructor vp (vp.(getDisplayedPlanes) ++ [plane]))))
                 .(displayedPlanes) = vp.(getDisplayedPlanes) ++ [plane]).
  { unfold runConstructor. cbv zeta.
    destruct (adjustVolume _ _ _ _ _) as [[[[rot' v'] o'] d'] zc].
    destruct (WorldToNpc.map _); [destruct (calcNpcToView _)|]; reflexivity. }
  destruct (runConstructor vp (vp.(getDisplayedPlanes) ++ [plane]))
    as [[vf v'] threw].
  cbn [fst snd] in *.
  destruct threw; [discriminate|].
  destruct (Qeq_bool 0 vf.(frustFraction)) eqn:E; [discriminate|].
  intro H. injection H as <-.
  split; [reflexivity|]. split; [|split; [exact Hp | reflexivity]].
  apply Qeq_bool_neq in E. intro H0. apply E. symmetry. exact H0.
Qed.
End PlanarBand.

(** X12 (witness).  [SampleScenes.vpPlanarScene]: a scene from z = -4 to
    z = 6 gets the band from -6 to 6. *)
Lemma construct_planar_band_encloses_witness :
  let vs := fst (construct (host := Sample.host) SampleScenes.vpPlanarScene []) in
  vs.(viewOrigin).(z) <= - (4)
  /\ 6 <= vs.(viewOrigin).(z) + vs.(viewDelta).(z)
  /\ vs.(viewOrigin).(z) <= - (1) /\ 2 <= vs.(viewDelta).(z).
Proof.
  apply (construct_planar_band_encloses (host := Sample.host)
           SampleScenes.vpPlanarScene []); vm_compute; reflexivity.
Defined.

(** X14 (witness).  A ground plane under [SampleViews.vp3d]. *)
Lemma createFromViewportAndPlane_some_witness :
  exists vs,
    fst (createFromViewportAndPlane (host := Sample.host) SampleViews.vp3d
           (mkPlane (mkXYZ 0 0 0) (mkXYZ 0 0 1))) = Some vs
    /\ ~ vs.(frustFraction) == 0
    /\ vs.(displayedPlanes) = [mkPlane (mkXYZ 0 0 0) (mkXYZ 0 0 1)].
Proof.
  eexists. split; [vm_compute; reflexivity|].
  match goal with
  | |- ~ frustFraction ?vs == 0 /\ _ =>
      destruct (createFromViewportAndPlane_some (host := Sample.host)
                  SampleViews.vp3d (mkPlane (mkXYZ 0 0 0) (mkXYZ 0 0 1)) vs)
        as (_ & Hf & Hp & _); [vm_compute; reflexivity|]
  end.
  split; [exact Hf | exact Hp].
Defined.

(** ** The frustum query and the view conversions *)

Section FrustumQuery.
Context {host : Host}.

Lemma getFrustum_no_recompute vs v sys adjustedBox box :
  negb adjustedBox && vs.(zClipAdjusted) = false ->
  getFrustum vs v sys adjustedBox box = npcToSystem vs sys NpcCorners.
Proof.
  intro H. unfold getFrustum. rewrite H. destruct box; reflexivity.
Qed.

(** X15.  On a ViewingSpace whose z planes were not adjusted, [getFrustum]
    returns for the unadjusted box what it returns for the adjusted box,
    whatever the coordinate system, the state of the view and the frustum
    passed in for the result. *)
Theorem getFrustum_unadjusted_is_adjusted (vs : ViewingSpace)
    (v v' : ViewState.t) (sys : CoordSystem) (box box' : option Frustum) :
  vs.(zClipAdjusted) = false ->
  getFrustum vs v sys false box = getFrustum vs v' sys true box'.
Proof.
  intro H. rewrite !getFrustum_no_recompute; [reflexivity| |].
  - reflexivity.
  - rewrite H. reflexivity.
Qed.

(** X16.  For the ViewingSpace constructed for a view that is 2D or does
    not allow 3D manipulations, asking [getFrustum] for the unadjusted box
    gives the adjusted box: the depth band the constructor wrote is the only
    one the query knows. *)
Theorem getFrustum_planar_unadjusted_is_adjusted (vp : Viewport)
    (planes : list Plane3dByOriginAndUnitNormal) (v : ViewState.t)
    (sys : CoordSystem) (box : option Frustum) :
  let vs := fst (construct vp planes) in
  vp.(view).(ViewState.is3d) && vp.(view).(ViewState.allow3dManipulations) = false ->
  getFrustum vs v sys false box = getFrustum vs v sys true box.
Proof.
  cbv zeta. intro Hk.
  assert (Hz : (fst (construct vp planes)).(zClipAdjusted) = false).
  { destruct (construct_fields vp planes) as (_ & _ & _ & _ & _ & -> & _).
    rewrite adjustVolume_zClipAdjusted, Hk. reflexivity. }
  rewrite !getFrustum_no_recompute; [reflexivity| |].
  - reflexivity.
  - rewrite Hz. reflexivity.
Qed.

(** [getFrustum] always returns eight corners, on every path: the early
    return, the recomputed unadjusted box and the plain conversion. *)
Lemma getFrustum_eight_corners (vs : ViewingSpace) (v : ViewState.t)
    (sys : CoordSystem) (adjustedBox : bool) (box : option Frustum) :
  length (getFrustum vs v sys adjustedBox box) = 8%nat.
Proof.
  unfold getFrustum.
  destruct (negb adjustedBox && vs.(zClipAdjusted)).
  - destruct (WorldToNpc.map _).
    + destruct sys; unfold npcToSystem, npcToViewArray, npcToWorldArray,
        worldToNpcArray; rewrite ?length_map; reflexivity.
    + destruct box; reflexivity.
  - destruct box; destruct sys;
      unfold npcToSystem, npcToViewArray, npcToWorldArray;
      rewrite ?length_map; reflexivity.
Qed.
End FrustumQuery.

(** X15 (witness).  The ViewingSpace of the top view [SampleViews.vp3d],
    which nothing adjusts. *)
Lemma getFrustum_unadjusted_is_adjusted_witness :
  let vs := fst (construct (host := Sample.host) SampleViews.vp3d []) in
  getFrustum (host := Sample.host) vs SampleViews.view3d CoordSystem_World false None
  = getFrustum (host := Sample.host) vs SampleViews.view3d CoordSystem_World true None.
Proof.
  apply (getFrustum_unadjusted_is_adjusted (host := Sample.host)).
  vm_compute. reflexivity.
Defined.

(** X16 (witness).  The planar view [SampleScenes.vpPlanarScene]. *)
Lemma getFrustum_planar_unadjusted_is_adjusted_witness :
  let vs := fst (construct (host := Sample.host) SampleScenes.vpPlanarScene []) in
  getFrustum (host := Sample.host) vs SampleScenes.viewPlanarScene
    CoordSystem_View false None
  = getFrustum (host := Sample.host) vs SampleScenes.viewPlanarScene
      CoordSystem_View true None.
Proof.
  apply (getFrustum_planar_unadjusted_is_adjusted (host := Sample.host)
           SampleScenes.vpPlanarScene []).
  vm_compute. reflexivity.
Defined.

(** ** Alignment, again *)

Section Alignment.
Context {host : Host}.

(** X18.  Aligning twice is aligning once: provided [isAlmostEqual] accepts
    world-up itself and [createRigidFromMatrix3d] keeps the world-up third
    column it is given, [alignWithRootZ] run on the rotation and the view
    that a first run left changes neither. *)
Theorem alignWithRootZ_idempotent (rot : Matrix3d) (v : ViewState.t) :
  isAlmostEqual unitZ unitZ = true ->
  columnZ (createRigidFromMatrix3d (setColumnZ (transpose rot) unitZ) AxisOrder_ZXY)
    = unitZ ->
  alignWithRootZ (fst (alignWithRootZ rot v)) (snd (alignWithRootZ rot v))
  = alignWithRootZ rot v.
Proof.
  intros Hrefl Hrigid. unfold alignWithRootZ at 2 3 4. cbv zeta.
  destruct (isAlmostEqual unitZ rot.(rowZ)) eqn:Ha; cbn [fst snd].
  - unfold alignWithRootZ. rewrite Ha. reflexivity.
  - unfold alignWithRootZ. cbv zeta.
    change (rowZ (transpose ?m)) with (columnZ m).
    rewrite Hrigid, Hrefl. reflexivity.
Qed.
End Alignment.

(** X18 (witness).  The front rotation [SampleViews.rotationFront]. *)
Lemma alignWithRootZ_idempotent_witness :
  alignWithRootZ (host := Sample.host)
    (fst (alignWithRootZ (host := Sample.host) SampleViews.rotationFront
            SampleViews.view2dFront))
    (snd (alignWithRootZ (host := Sample.host) SampleViews.rotationFront
            SampleViews.view2dFront))
  = alignWithRootZ (host := Sample.host) SampleViews.rotationFront
      SampleViews.view2dFront.
Proof.
  apply (alignWithRootZ_idempotent (host := Sample.host)
           SampleViews.rotationFront SampleViews.view2dFront);
    vm_compute; reflexivity.
Defined.
